(** * esp32-udp-logger: the command-line tool [tools/esp32_udp_logger_cli.py]

    A shallow embedding of the discovery adapter and of the command
    dispatcher, and the properties of the design notes checked against it.

    Conventions of the embedding.
    - A Python [str] is a [string] that holds the UTF-8 encoding of the text
      (the convention of Rocq's own string literals); [bytes] are [list byte].
    - [str.lower], [str.strip], [str.isdigit] and [int] follow the Unicode
      tables of the interpreter.  They are an interface, [Builtins]: the tool
      is defined and its properties are proved for every implementation of
      it.  The implementation on ASCII text, [ascii_builtins], runs the
      sample sessions.
    - A Python [int] is a [Z].  Ports are the 16-bit ports of mDNS records
      and of well-formed command lines.
    - The operating system and the network are an oracle, the record
      [network]: what mDNS advertised during the browse, and how each socket
      call answers.  Standard input is a list of lines; what the program
      writes and sends is recorded in order as a list of [event]s.
    - A call either returns or raises: [outcome]. *)

From Stdlib Require Import ZArith List String Ascii Bool Lia.
From Stdlib Require Import Strings.Byte DecimalString Sorting.Sorted Sorting.Permutation.
Import ListNotations.

Local Open Scope string_scope.
Local Open Scope Z_scope.

(** ** Text primitives of Python used by the tool *)

Module Py.

(** [c.lower()] for one ASCII character. *)
Definition lower_char (c : ascii) : ascii :=
  let n := N_of_ascii c in
  if ((65 <=? n) && (n <=? 90))%N then ascii_of_N (n + 32) else c.

(** [s.lower()] for ASCII text: the letters A to Z are folded, every other
    character is kept. *)
Fixpoint ascii_lower (s : string) : string :=
  match s with
  | EmptyString => EmptyString
  | String c r => String (lower_char c) (ascii_lower r)
  end.

(** [c.isspace()] for an ASCII character: tab, line feed, vertical tab,
    form feed, carriage return, the four separators 0x1c-0x1f, and space. *)
Definition ascii_isspace (c : ascii) : bool :=
  let n := N_of_ascii c in
  (((9 <=? n) && (n <=? 13)) || ((28 <=? n) && (n <=? 32)))%N.

Fixpoint lstrip_with (p : ascii -> bool) (s : string) : string :=
  match s with
  | EmptyString => EmptyString
  | String c r => if p c then lstrip_with p r else s
  end.

Fixpoint rstrip_with (p : ascii -> bool) (s : string) : string :=
  match s with
  | EmptyString => EmptyString
  | String c r =>
      match rstrip_with p r with
      | EmptyString => if p c then EmptyString else String c EmptyString
      | r' => String c r'
      end
  end.

(** [s.strip()] for ASCII text. *)
Definition ascii_strip (s : string) : string :=
  rstrip_with ascii_isspace (lstrip_with ascii_isspace s).

(** [s.rstrip(".")]. *)
Definition rstrip_dot (s : string) : string :=
  rstrip_with (fun c => Ascii.eqb c ".") s.

(** [needle in hay]. *)
Fixpoint str_in (needle hay : string) : bool :=
  prefix needle hay ||
  match hay with
  | EmptyString => false
  | String _ r => str_in needle r
  end.

(** [s.split(sep)[0]] for a non-empty separator: the text before the first
    occurrence of [sep], the whole of [s] when there is none. *)
Fixpoint split_head (sep s : string) : string :=
  if prefix sep s then EmptyString
  else match s with
       | EmptyString => EmptyString
       | String c r => String c (split_head sep r)
       end.

(** [s.endswith(suffix)]. *)
Fixpoint endswith (s suffix : string) : bool :=
  String.eqb s suffix ||
  match s with
  | EmptyString => false
  | String _ r => endswith r suffix
  end.

(** Truth value of a string: [bool(s)]. *)
Definition truthy (s : string) : bool :=
  match s with EmptyString => false | _ => true end.

(** [a or b] on strings. *)
Definition or_else (a b : string) : string :=
  if truthy a then a else b.

(** [str(n)] and the [{n}] of an f-string for an [int]. *)
Definition str_int (n : Z) : string :=
  NilZero.string_of_int (Z.to_int n).

Definition is_digit_char (c : ascii) : bool :=
  let n := N_of_ascii c in ((48 <=? n) && (n <=? 57))%N.

Fixpoint all_chars (p : ascii -> bool) (s : string) : bool :=
  match s with
  | EmptyString => true
  | String c r => p c && all_chars p r
  end.

(** [s.isdigit()] for ASCII text: not empty and digits 0 to 9 only. *)
Definition ascii_isdigit (s : string) : bool :=
  truthy s && all_chars is_digit_char s.

Fixpoint int_digits (acc : Z) (s : string) : Z :=
  match s with
  | EmptyString => acc
  | String c r => int_digits (10 * acc + (Z.of_N (N_of_ascii c) - 48)) r
  end.

(** [int(s)] for a string of ASCII digits: its value, and [None], for the
    [ValueError] of the interpreter, when it has more than 4300 digits.  The
    tool calls [int] only on text that passed [isdigit]. *)
Definition ascii_int (s : string) : option Z :=
  if ascii_isdigit s && (String.length s <=? 4300)%nat then Some (int_digits 0 s) else None.

(** [len(s)]: the number of characters, that is of bytes that do not
    continue a UTF-8 sequence. *)
Fixpoint len (s : string) : nat :=
  match s with
  | EmptyString => O
  | String c r =>
      let n := N_of_ascii c in
      if ((128 <=? n) && (n <? 192))%N then len r else S (len r)
  end.

Fixpoint spaces (n : nat) : string :=
  match n with
  | O => EmptyString
  | S k => String " " (spaces k)
  end.

(** [f"{s:<w>s}"]: left-aligned, padded with spaces to width [w]. *)
Definition fmt_s (w : nat) (s : string) : string :=
  s ++ spaces (w - len s).

(** [f"{n:<w>d}"]: right-aligned, padded with spaces to width [w]. *)
Definition fmt_d (w : nat) (n : Z) : string :=
  let s := str_int n in spaces (w - len s) ++ s.

(** [s.encode("utf-8", errors="replace")]: the string already holds its
    encoding. *)
Definition encode_utf8 (s : string) : list byte := list_byte_of_string s.

(** [data.decode("utf-8", errors="replace")].  Well-formed sequences are
    kept; each ill-formed part becomes U+FFFD (bytes EF BF BD): a byte that
    cannot start a sequence, a start byte up to the byte that cannot continue
    it, or the truncated sequence that ends the data. *)
Definition replacement : string :=
  String (ascii_of_byte xef) (String (ascii_of_byte xbf) (String (ascii_of_byte xbd) EmptyString)).

Definition bval (b : byte) : N := Byte.to_N b.

Definition is_continuation (b : byte) : bool :=
  ((128 <=? bval b) && (bval b <? 192))%N.

(** The second byte of a three-byte sequence must avoid the overlong forms
    (after E0) and the surrogates (after ED). *)
Definition second_ok3 (b0 b1 : byte) : bool :=
  is_continuation b1 &&
  negb (if (bval b1 <? 160)%N then (bval b0 =? 224)%N else (bval b0 =? 237)%N).

(** The second byte of a four-byte sequence must avoid the overlong forms
    (after F0) and the code points above U+10FFFF (after F4). *)
Definition second_ok4 (b0 b1 : byte) : bool :=
  is_continuation b1 &&
  negb (if (bval b1 <? 144)%N then (bval b0 =? 240)%N else (bval b0 =? 244)%N).

Definition keep (b : byte) (s : string) : string := String (ascii_of_byte b) s.

Fixpoint decode_utf8 (data : list byte) : string :=
  match data with
  | [] => EmptyString
  | b0 :: t1 =>
      if (bval b0 <? 128)%N then keep b0 (decode_utf8 t1)
      else if (bval b0 <? 194)%N then replacement ++ decode_utf8 t1
      else if (bval b0 <? 224)%N then
        match t1 with
        | [] => replacement
        | b1 :: t2 =>
            if is_continuation b1 then keep b0 (keep b1 (decode_utf8 t2))
            else replacement ++ decode_utf8 t1
        end
      else if (bval b0 <? 240)%N then
        match t1 with
        | [] => replacement
        | b1 :: t2 =>
            if second_ok3 b0 b1 then
              match t2 with
              | [] => replacement
              | b2 :: t3 =>
                  if is_continuation b2
                  then keep b0 (keep b1 (keep b2 (decode_utf8 t3)))
                  else replacement ++ decode_utf8 t2
              end
            else replacement ++ decode_utf8 t1
        end
      else if (bval b0 <? 245)%N then
        match t1 with
        | [] => replacement
        | b1 :: t2 =>
            if second_ok4 b0 b1 then
              match t2 with
              | [] => replacement
              | b2 :: t3 =>
                  if is_continuation b2 then
                    match t3 with
                    | [] => replacement
                    | b3 :: t4 =>
                        if is_continuation b3
                        then keep b0 (keep b1 (keep b2 (keep b3 (decode_utf8 t4))))
                        else replacement ++ decode_utf8 t3
                    end
                  else replacement ++ decode_utf8 t2
              end
            else replacement ++ decode_utf8 t1
        end
      else replacement ++ decode_utf8 t1
  end.

End Py.

(** ** The text functions of the interpreter *)

(** [s.lower()], [s.strip()], [s.isdigit()] and [int(s)], the last one
    [None] when it raises [ValueError].  In Python they follow Unicode: they
    fold, strip and accept far more than the ASCII characters.  Nothing in
    the tool depends on how they do it, so they are taken as they come. *)
Class Builtins := {
  lower : string -> string;
  strip : string -> string;
  isdigit : string -> bool;
  int_of : string -> option Z
}.

(** The four functions on ASCII text, where they are what Python computes. *)
#[global] Instance ascii_builtins : Builtins := {|
  lower := Py.ascii_lower;
  strip := Py.ascii_strip;
  isdigit := Py.ascii_isdigit;
  int_of := Py.ascii_int
|}.

(** ** Data model *)

Definition SERVICE_TYPE : string := "_esp32udplog._udp.local.".
Definition DEFAULT_RX_PORT : Z := 9998.
Definition DEFAULT_TX_PORT : Z := 9999.

(** The dataclass [Device]. *)
Record Device := mkDevice {
  name : string;
  host : string;
  ip : string;
  port : Z
}.

(** What the tool reads of zeroconf's [ServiceInfo]: [info.port] (possibly
    [None]), [info.parsed_addresses()] and [info.server] (possibly [None]). *)
Record ServiceInfo := mkServiceInfo {
  info_port : option Z;
  parsed_addresses : list string;
  server : option string
}.

(** One callback of the service browser on the listener, with the answer
    [zc.get_service_info(service_type, name, timeout=1500)] gave to it. *)
Inductive mdns_event :=
| AddService (fqdn : string) (info : option ServiceInfo)
| UpdateService (fqdn : string) (info : option ServiceInfo)
| RemoveService (fqdn : string).

(** ** Discovery adapter *)

(** The loop of [_info_to_device] over the addresses: the first one without
    a colon, the empty string when there is none. *)
Fixpoint first_ipv4 (addrs : list string) : string :=
  match addrs with
  | [] => ""
  | addr :: rest => if negb (Py.str_in ":" addr) then addr else first_ipv4 rest
  end.

Definition _info_to_device (info : option ServiceInfo) (fqdn : string) : option Device :=
  match info with
  | None => None
  | Some info =>
      let instance := Py.split_head "._esp32udplog._udp.local." fqdn in
      let port :=
        match info_port info with
        | Some p => if p =? 0 then DEFAULT_RX_PORT else p
        | None => DEFAULT_RX_PORT
        end in
      let ip := first_ipv4 (parsed_addresses info) in
      let host :=
        Py.rstrip_dot (match server info with Some s => Py.or_else s "" | None => "" end) in
      if negb (Py.truthy ip) then None
      else Some (mkDevice instance
                          (if Py.truthy host then host else instance ++ ".local")
                          ip port)
  end.

(** [self.devices]: a dict keeps its keys in the order of their first
    insertion, and assigning to a key that is present replaces the value in
    place. *)
Definition dict := list (string * Device).

Fixpoint dict_set (k : string) (v : Device) (d : dict) : dict :=
  match d with
  | [] => [(k, v)]
  | (k', v') :: rest =>
      if String.eqb k' k then (k', v) :: rest else (k', v') :: dict_set k v rest
  end.

Definition dict_values (d : dict) : list Device := map snd d.

(** [_Listener.add_service]. *)
Definition add_service (devices : dict) (fqdn : string) (info : option ServiceInfo) : dict :=
  match _info_to_device info fqdn with
  | Some dev => dict_set (name dev) dev devices
  | None => devices
  end.

(** The three callbacks of [_Listener]: [update_service] is [add_service],
    [remove_service] does nothing. *)
Definition listener_step (devices : dict) (ev : mdns_event) : dict :=
  match ev with
  | AddService fqdn info => add_service devices fqdn info
  | UpdateService fqdn info => add_service devices fqdn info
  | RemoveService _ => devices
  end.

Definition listener_run (evs : list mdns_event) : dict :=
  fold_left listener_step evs [].

(** [list.sort(key=...)] is stable: an element goes before the first element
    of the sorted rest whose key is not smaller. *)
Section Sort.
Context {A : Type} (key : A -> string).

Fixpoint insert_by (x : A) (l : list A) : list A :=
  match l with
  | [] => [x]
  | y :: rest =>
      if String.leb (key x) (key y) then x :: l else y :: insert_by x rest
  end.

Definition sort_by (l : list A) : list A := fold_right insert_by [] l.

(** The order the sort establishes: keys compared as Python compares
    strings, code point by code point. *)
Definition key_le (x y : A) : Prop := String.leb (key x) (key y) = true.
End Sort.

Definition sort_key {rt : Builtins} (d : Device) : string := lower (name d).

(** [discover]: the devices the listener holds when the browse ends, sorted
    by lower-cased name. *)
Definition discover {rt : Builtins} (evs : list mdns_event) : list Device :=
  sort_by sort_key (dict_values (listener_run evs)).

(** ** Effects: exceptions, the terminal and the network *)

(** The exceptions that reach the tool.  [socket.timeout] is an [OSError]
    in Python; it is kept apart because [send_udp_cmd] handles it first.
    [ValueError] is that of [int] in [pick_device].  Ports are taken in the
    range of a socket address, so the [OverflowError] of a port outside it
    is not among them. *)
Inductive exn :=
| SystemExit (msg : string)
| OSError (msg : string)
| SocketTimeout
| EOFError
| ValueError
| IndexError
| KeyboardInterrupt.

Inductive outcome (A : Type) :=
| Return (a : A)
| Raise (e : exn).
Arguments Return {A} a.
Arguments Raise {A} e.

(** What the process does that an observer sees, in order: text written to
    standard output, and datagrams handed to [sendto]. *)
Inductive event :=
| Stdout (text : string)
| Sendto (data : list byte) (ip : string) (port : Z).

Record world := mkWorld {
  stdin : list string;
  trace : list event
}.

(** The answer of [recvfrom]. *)
Inductive recv :=
| Datagram (data : list byte)
| Timeout
| RecvError (msg : string).

(** The oracle.  An [option string] answer is [None] on success and the
    text of the [OSError] otherwise.  [os_connect target port] answers the
    pair of calls [s.connect((target, port)); s.getsockname()[0]]: the local
    address, or the text of the [OSError].  [inbound] is what arrives at
    the listener before it is interrupted. *)
Record network := mkNetwork {
  mdns : list mdns_event;
  os_connect : string -> Z -> string + string;
  os_bind : Z -> option string;
  os_sendto : list byte -> string -> Z -> option string;
  os_recvfrom : recv;
  inbound : list (list byte)
}.

Definition M (A : Type) : Type := network -> world -> outcome A * world.

Definition ret {A} (a : A) : M A := fun _ w => (Return a, w).

Definition raise {A} (e : exn) : M A := fun _ w => (Raise e, w).

Definition bind {A B} (m : M A) (k : A -> M B) : M B :=
  fun net w =>
    match m net w with
    | (Return a, w') => k a net w'
    | (Raise e, w') => (Raise e, w')
    end.

Declare Scope py_scope.
Delimit Scope py_scope with py.
Notation "x <- m ;; k" := (bind m (fun x => k))
  (at level 61, m at next level, right associativity) : py_scope.
Notation "m ;; k" := (bind m (fun _ => k))
  (at level 61, right associativity) : py_scope.
Local Open Scope py_scope.

(** [try: body except socket.timeout: handler]. *)
Definition except_timeout {A} (body handler : M A) : M A :=
  fun net w =>
    match body net w with
    | (Raise SocketTimeout, w') => handler net w'
    | r => r
    end.

(** [try: body except OSError as e: handler(str(e))]. *)
Definition except_OSError {A} (body : M A) (handler : string -> M A) : M A :=
  fun net w =>
    match body net w with
    | (Raise (OSError msg), w') => handler msg net w'
    | (Raise SocketTimeout, w') => handler "timed out" net w'
    | r => r
    end.

Definition emit (e : event) : M unit :=
  fun _ w => (Return tt, mkWorld (stdin w) (trace w ++ [e])%list).

(** [sys.stdout.write(s)]. *)
Definition write (s : string) : M unit := emit (Stdout s).

Definition newline : string := String (ascii_of_N 10) EmptyString.

(** [print(s)]. *)
Definition print (s : string) : M unit := write (s ++ newline).

(** [s.bind(("", port))]. *)
Definition sock_bind (port : Z) : M unit :=
  fun net w =>
    match os_bind net port with
    | None => (Return tt, w)
    | Some msg => (Raise (OSError msg), w)
    end.

(** [s.sendto(data, (ip, port))]. *)
Definition sock_sendto (data : list byte) (ip : string) (port : Z) : M unit :=
  emit (Sendto data ip port) ;;
  fun net w =>
    match os_sendto net data ip port with
    | None => (Return tt, w)
    | Some msg => (Raise (OSError msg), w)
    end.

(** [s.recvfrom(bufsize)[0]] on the socket of [send_udp_cmd]: a datagram
    longer than the buffer is cut. *)
Definition sock_recvfrom (bufsize : Z) : M (list byte) :=
  fun net w =>
    match os_recvfrom net with
    | Datagram data => (Return (firstn (Z.to_nat bufsize) data), w)
    | Timeout => (Raise SocketTimeout, w)
    | RecvError msg => (Raise (OSError msg), w)
    end.

(** The exit status of the interpreter: 0 on return; 1 after
    [SystemExit] with a message (printed on standard error) and after an
    unhandled exception (printed with its traceback); 130 when interrupted. *)
Definition exit_status {A} (o : outcome A) : Z :=
  match o with
  | Return _ => 0
  | Raise KeyboardInterrupt => 130
  | Raise _ => 1
  end.

(** The process ended on an exception nobody handled. *)
Definition unhandled {A} (o : outcome A) : bool :=
  match o with
  | Return _ => false
  | Raise (SystemExit _) => false
  | Raise _ => true
  end.

(** ** The operations of the tool *)

Definition no_devices_msg : string :=
  "No devices found. (mDNS blocked? component not advertising _esp32udplog._udp?)".

(** The menu line of [pick_device] for the [i]-th device. *)
Definition menu_line (i : Z) (d : Device) : string :=
  Py.fmt_d 2 i ++ ") " ++ Py.fmt_s 24 (name d) ++ "  ip=" ++ Py.fmt_s 15 (ip d)
  ++ "  rx_port=" ++ Py.str_int (port d).

Fixpoint print_menu (i : Z) (devices : list Device) : M unit :=
  match devices with
  | [] => ret tt
  | d :: rest => print (menu_line i d) ;; print_menu (i + 1) rest
  end.

Definition len_devices (devices : list Device) : Z := Z.of_nat (List.length devices).

(** The [while True] of [pick_device], by recursion on the lines that
    standard input still holds; [input] raises [EOFError] when there is
    none, and [int] may raise [ValueError] on text that passed [isdigit]. *)
Fixpoint select_loop {rt : Builtins} (devices : list Device) (lines : list string)
         (tr : list event) : outcome Device * world :=
  let tr := (tr ++ [Stdout ("Select device [1-" ++ Py.str_int (len_devices devices) ++ "]: ")])%list in
  match lines with
  | [] => (Raise EOFError, mkWorld [] tr)
  | line :: rest =>
      let sel := strip line in
      let again := select_loop devices rest (tr ++ [Stdout ("Invalid selection." ++ newline)])%list in
      if isdigit sel then
        match int_of sel with
        | None => (Raise ValueError, mkWorld rest tr)
        | Some n =>
            if (1 <=? n) && (n <=? len_devices devices) then
              match nth_error devices (Z.to_nat (n - 1)) with
              | Some d => (Return d, mkWorld rest tr)
              | None => (Raise IndexError, mkWorld rest tr)
              end
            else again
        end
      else again
  end.

Definition pick_device {rt : Builtins} (devices : list Device) : M Device :=
  match devices with
  | [] => raise (SystemExit no_devices_msg)
  | _ =>
      print_menu 1 devices ;;
      fun _ w => select_loop devices (stdin w) (trace w)
  end.

Definition send_udp_cmd (ip : string) (port : Z) (cmd : string) (expect_reply : bool)
  : M string :=
  let cmd_bytes := Py.encode_utf8 cmd in
  sock_bind 0 ;;
  except_OSError
    (sock_sendto cmd_bytes ip port ;;
     if negb expect_reply then ret ""
     else except_timeout
            (data <- sock_recvfrom 2048 ;; ret (Py.decode_utf8 data))
            (ret ""))
    (fun e =>
       raise (SystemExit ("Network error sending command to " ++ ip ++ ":"
                          ++ Py.str_int port ++ ": " ++ e))).

Definition get_local_ip_for_target (target_ip : string) : M string :=
  fun net w =>
    match os_connect net target_ip 9 with
    | inl local => (Return local, w)
    | inr e =>
        (Raise (SystemExit ("Failed to determine local IP for " ++ target_ip ++ ": " ++ e)), w)
    end.

(** The [while True] of [listen_logs], by recursion on the datagrams that
    arrive; the loop ends only when the process is interrupted. *)
Fixpoint listen_loop (rx : list (list byte)) : M unit :=
  match rx with
  | [] => raise KeyboardInterrupt
  | data :: rest =>
      let txt := Py.decode_utf8 (firstn (Z.to_nat 65535) data) in
      write txt ;;
      (if negb (Py.endswith txt newline) then write newline else ret tt) ;;
      listen_loop rest
  end.

Definition listen_logs (port : Z) : M unit :=
  print ("Listening for UDP logs on 0.0.0.0:" ++ Py.str_int port ++ " (Ctrl+C to stop)") ;;
  sock_bind port ;;
  fun net w => listen_loop (inbound net) net w.

(** ** The command dispatcher *)

(** The namespace [argparse] hands to [main]: one subcommand with its
    arguments, defaults filled in. *)
Inductive command :=
| CmdList
| CmdPick (tx_port : Z)
| CmdBind (device : string) (pc_ip : string) (tx_port : Z)
| CmdUnbind (device : string)
| CmdStatus (device : string)
| CmdBroadcastOn (device : string)
| CmdBroadcastOff (device : string)
| CmdListen (port : Z).

(** The two loops of the nested function [resolve]: the first device the
    predicate accepts. *)
Fixpoint first_match (p : Device -> bool) (devices : list Device) : option Device :=
  match devices with
  | [] => None
  | d :: rest => if p d then Some d else first_match p rest
  end.

Definition not_found_msg (argv0 name : string) : string :=
  "Device not found: " ++ name ++ ". Run: " ++ argv0 ++ " list".

(** [resolve], with the [devices] and [sys.argv[0]] it closes over. *)
Definition resolve {rt : Builtins}
      (argv0 : string) (devices : list Device) (wanted : string) : M Device :=
  if String.eqb wanted "pick" then pick_device devices
  else
    match first_match (fun d => String.eqb (name d) wanted) devices with
    | Some d => ret d
    | None =>
        match first_match (fun d => String.eqb (lower (name d)) (lower wanted)) devices with
        | Some d => ret d
        | None => raise (SystemExit (not_found_msg argv0 wanted))
        end
    end.

(** The command [bind] sends. *)
Definition bind_payload (pc_ip : string) (tx_port : Z) : string :=
  "bind " ++ pc_ip ++ " " ++ Py.str_int tx_port.

(** [print(send_udp_cmd(d.ip, d.port, cmd) or fallback)]. *)
Definition send_and_print (d : Device) (cmd fallback : string) : M unit :=
  r <- send_udp_cmd (ip d) (port d) cmd true ;;
  print (Py.or_else r fallback).

(** The [while True] of the action menu, by recursion on the lines that
    standard input still holds. *)
Fixpoint choose_loop {rt : Builtins}
      (lines : list string) (tr : list event) : outcome string * world :=
  let tr := (tr ++ [Stdout "Choose [1-5]: "])%list in
  match lines with
  | [] => (Raise EOFError, mkWorld [] tr)
  | line :: rest =>
      let a := strip line in
      if existsb (String.eqb a) ["1"; "2"; "3"; "4"; "5"] then (Return a, mkWorld rest tr)
      else choose_loop rest tr
  end.

(** The [if a == "1": ... elif ...] chain of the [pick] branch. *)
Definition pick_action (a : string) (d : Device) (tx_port : Z) : M unit :=
  if String.eqb a "1" then
    pc_ip <- get_local_ip_for_target (ip d) ;;
    send_and_print d (bind_payload pc_ip tx_port) "OK (no reply)"
  else if String.eqb a "2" then send_and_print d "status" "(no reply)"
  else if String.eqb a "3" then send_and_print d "unbind" "OK (no reply)"
  else if String.eqb a "4" then send_and_print d "broadcast off" "OK (no reply)"
  else if String.eqb a "5" then send_and_print d "broadcast on" "OK (no reply)"
  else ret tt.

(** The branch [args.cmd == "pick"] of [main]. *)
Definition main_pick {rt : Builtins} (devices : list Device) (tx_port : Z) : M unit :=
  d <- pick_device devices ;;
  print ("Selected " ++ name d ++ " (ip=" ++ ip d ++ ", rx_port=" ++ Py.str_int (port d) ++ ")") ;;
  print "Actions:" ;;
  print "  1) bind to me" ;;
  print "  2) status" ;;
  print "  3) unbind" ;;
  print "  4) broadcast off" ;;
  print "  5) broadcast on" ;;
  a <- (fun _ w => choose_loop (stdin w) (trace w)) ;;
  pick_action a d tx_port.

(** The branch [args.cmd == "bind"] of [main], once the device is resolved. *)
Definition main_bind {rt : Builtins} (d : Device) (pc_ip : string) (tx_port : Z) : M unit :=
  pc_ip <- (if Py.truthy (strip pc_ip) then ret (strip pc_ip)
            else get_local_ip_for_target (ip d)) ;;
  send_and_print d (bind_payload pc_ip tx_port) "OK (no reply)".

Definition tab : string := String (ascii_of_N 9) EmptyString.

(** The [for d in devices: print(...)] of the branch [list]. *)
Fixpoint print_devices (devices : list Device) : M unit :=
  match devices with
  | [] => ret tt
  | d :: rest =>
      print (name d ++ tab ++ "ip=" ++ ip d ++ tab ++ "rx_port=" ++ Py.str_int (port d)) ;;
      print_devices rest
  end.

(** [discover()] as [main] calls it: the browse is the oracle's. *)
Definition discover_now {rt : Builtins} : M (list Device) :=
  fun net w => (Return (discover (mdns net)), w).

(** [main] after [devices = discover()].  [listen] never gets here; like
    the Python, the chain of tests then falls off the end. *)
Definition dispatch {rt : Builtins}
      (argv0 : string) (args : command) (devices : list Device) : M unit :=
  match args with
  | CmdList =>
      match devices with
      | [] => print "No devices found."
      | _ => print_devices devices
      end
  | CmdPick tx_port => main_pick devices tx_port
  | CmdBind device pc_ip tx_port =>
      d <- resolve argv0 devices device ;; main_bind d pc_ip tx_port
  | CmdUnbind device =>
      d <- resolve argv0 devices device ;; send_and_print d "unbind" "OK (no reply)"
  | CmdStatus device =>
      d <- resolve argv0 devices device ;; send_and_print d "status" "(no reply)"
  | CmdBroadcastOn device =>
      d <- resolve argv0 devices device ;; send_and_print d "broadcast on" "OK (no reply)"
  | CmdBroadcastOff device =>
      d <- resolve argv0 devices device ;; send_and_print d "broadcast off" "OK (no reply)"
  | CmdListen _ => ret tt
  end.

(** [main], from the parsed arguments on. *)
Definition main {rt : Builtins} (argv0 : string) (args : command) : M unit :=
  match args with
  | CmdListen port => listen_logs port
  | _ => devices <- discover_now ;; dispatch argv0 args devices
  end.

(** A run of the tool: the outcome and the world it leaves. *)
Definition run {rt : Builtins}
      (argv0 : string) (args : command) (net : network) (lines : list string)
  : outcome unit * world :=
  main argv0 args net (mkWorld lines []).

(** ** Sample runs *)

Definition quiet_net : network :=
  mkNetwork [] (fun _ _ => inl "192.168.1.10") (fun _ => None) (fun _ _ _ => None) Timeout [].

Definition info4 (addr : string) (p : Z) : option ServiceInfo :=
  Some (mkServiceInfo (Some p) ["fe80::1"; addr] (Some "esp.local.")).

Definition lab_net : network :=
  mkNetwork
    [AddService "Kitchen._esp32udplog._udp.local." (info4 "10.0.0.7" 9998);
     AddService "attic._esp32udplog._udp.local." (info4 "10.0.0.9" 0);
     AddService "v6only._esp32udplog._udp.local."
                (Some (mkServiceInfo (Some 9998) ["fe80::2"] None));
     UpdateService "Kitchen._esp32udplog._udp.local." (info4 "10.0.0.8" 9000)]
    (fun _ _ => inl "10.0.0.2") (fun _ => None) (fun _ _ _ => None)
    (Datagram (list_byte_of_string "bound")) [].

(** ** Vocabulary of the properties *)

(** The device a callback stores, if any. *)
Definition event_device (ev : mdns_event) : option Device :=
  match ev with
  | AddService fqdn info | UpdateService fqdn info => _info_to_device info fqdn
  | RemoveService _ => None
  end.

(** The advertisement gives no IPv4 address: the service did not resolve,
    or every address it parsed to has a colon. *)
Definition lacks_ipv4 (ev : mdns_event) : bool :=
  match ev with
  | AddService _ info | UpdateService _ info =>
      match info with
      | Some i => forallb (Py.str_in ":") (parsed_addresses i)
      | None => true
      end
  | RemoveService _ => false
  end.

(** Every entry is filed under the name of its device, and no key occurs
    twice. *)
Definition dict_ok (d : dict) : Prop :=
  NoDup (map fst d) /\ Forall (fun kv => fst kv = name (snd kv)) d.

(** The datagrams a trace hands to [sendto], with their destination. *)
Fixpoint sent (tr : list event) : list (list byte * string * Z) :=
  match tr with
  | [] => []
  | Sendto data ip port :: rest => (data, ip, port) :: sent rest
  | Stdout _ :: rest => sent rest
  end.

(** [s] occurs in [t]. *)
Definition occurs_in (s t : string) : Prop :=
  exists pre post, t = pre ++ s ++ post.

(** The same network, except for what [recvfrom] answers. *)
Definition with_recv (net : network) (r : recv) : network :=
  mkNetwork (mdns net) (os_connect net) (os_bind net) (os_sendto net) r (inbound net).

(** The same network, except that [bind] fails with this error. *)
Definition with_bind_error (net : network) (msg : string) : network :=
  mkNetwork (mdns net) (os_connect net) (fun _ => Some msg) (os_sendto net)
            (os_recvfrom net) (inbound net).

(** The same network, except that [sendto] fails with this error. *)
Definition with_send_error (net : network) (msg : string) : network :=
  mkNetwork (mdns net) (os_connect net) (os_bind net) (fun _ _ _ => Some msg)
            (os_recvfrom net) (inbound net).

(** The device argument of a command, when it takes one. *)
Definition device_arg (args : command) : option string :=
  match args with
  | CmdBind device _ _ | CmdUnbind device | CmdStatus device
  | CmdBroadcastOn device | CmdBroadcastOff device => Some device
  | CmdList | CmdPick _ | CmdListen _ => None
  end.

Definition is_listen (args : command) : bool :=
  match args with CmdListen _ => true | _ => false end.

(** The message of [send_udp_cmd] when the exchange fails. *)
Definition network_error_msg (ip : string) (port : Z) (e : string) : string :=
  "Network error sending command to " ++ ip ++ ":" ++ Py.str_int port ++ ": " ++ e.

(** The world once [send_udp_cmd] has handed its datagram to [sendto]. *)
Definition after_send (w : world) (ip : string) (port : Z) (cmd : string) : world :=
  mkWorld (stdin w) (trace w ++ [Sendto (Py.encode_utf8 cmd) ip port])%list.

(** The world once a line has been printed. *)
Definition after_print (w : world) (line : string) : world :=
  mkWorld (stdin w) (trace w ++ [Stdout (line ++ newline)])%list.

(** A discovered list in which one device is itself called [pick]. *)
Definition pick_named_devices : list Device :=
  [mkDevice "attic" "attic.local" "10.0.0.9" 9998;
   mkDevice "pick" "pick.local" "10.0.0.12" 9998].

(** What [print_menu] writes. *)
Fixpoint menu_events (i : Z) (devices : list Device) : list event :=
  match devices with
  | [] => []
  | d :: rest => Stdout (menu_line i d ++ newline) :: menu_events (i + 1) rest
  end.

(** Two networks that differ at most in what [recvfrom] answers. *)
Definition agree (net net' : network) : Prop :=
  mdns net = mdns net' /\ os_connect net = os_connect net' /\
  os_bind net = os_bind net' /\ os_sendto net = os_sendto net' /\
  inbound net = inbound net'.

(** A computation without an exchange: it hands nothing to [sendto], and
    what [recvfrom] would answer makes no difference to it. *)
Definition no_exchange {A} (m : M A) : Prop :=
  forall net net' w,
    agree net net' ->
    m net w = m net' w /\ sent (trace (snd (m net w))) = sent (trace w).

(** The address [bind] announces: the [--pc-ip] argument once stripped, or,
    when that is empty, the local address of a socket connected to the
    device. *)
Definition bind_address {rt : Builtins}
      (net : network) (d : Device) (pc_ip : string) : option string :=
  if Py.truthy (strip pc_ip) then Some (strip pc_ip)
  else match os_connect net (ip d) 9 with
       | inl local => Some local
       | inr _ => None
       end.

(** The datagrams of a [bind]: none when the address cannot be determined
    or the local socket cannot be bound, else the one command. *)
Definition bind_datagrams {rt : Builtins}
      (net : network) (d : Device) (pc_ip : string) (tx_port : Z)
  : list (list byte * string * Z) :=
  match bind_address net d pc_ip, os_bind net 0 with
  | Some addr, None =>
      [(list_byte_of_string ("bind " ++ addr ++ " " ++ Py.str_int tx_port), ip d, port d)]
  | _, _ => []
  end.

(** The datagrams of a [bind] that announces the local address: none
    when the address cannot be determined or the local socket cannot be
    bound, else the one command. *)
Definition local_bind_datagrams (net : network) (d : Device) (tx_port : Z)
  : list (list byte * string * Z) :=
  match os_connect net (ip d) 9, os_bind net 0 with
  | inl addr, None =>
      [(list_byte_of_string ("bind " ++ addr ++ " " ++ Py.str_int tx_port), ip d, port d)]
  | _, _ => []
  end.

(** The run ended normally and its last line is one of the two notices
    for a missing reply. *)
Definition reports_no_reply (r : outcome unit * world) : Prop :=
  fst r = Return tt /\
  exists tr m, trace (snd r) = (tr ++ [Stdout (m ++ newline)])%list /\
               (m = "OK (no reply)" \/ m = "(no reply)").


(** Relative to the world a computation started in: it sent nothing, or
    it ended normally on a notice for a missing reply. *)
Definition silent_or_reported (w : world) (r : outcome unit * world) : Prop :=
  sent (trace (snd r)) = sent (trace w) \/ reports_no_reply r.

(** The computation cannot tell the two networks apart. *)
Definition same_on (net1 net2 : network) {A} (m : M A) : Prop :=
  forall w, m net1 w = m net2 w.

(** The same network, except for what [connect] and [getsockname] answer. *)
Definition with_connect (net : network) (f : string -> Z -> string + string) : network :=
  mkNetwork (mdns net) f (os_bind net) (os_sendto net) (os_recvfrom net) (inbound net).

(** The message of [get_local_ip_for_target] when the address cannot be
    determined. *)
Definition local_ip_error_msg (target e : string) : string :=
  "Failed to determine local IP for " ++ target ++ ": " ++ e.

(** Every character is below U+0080. *)
Definition is_ascii (s : string) : bool :=
  Py.all_chars (fun c => (N_of_ascii c <? 128)%N) s.

(** The prompt of [pick_device]. *)
Definition select_prompt (devices : list Device) : event :=
  Stdout ("Select device [1-" ++ Py.str_int (len_devices devices) ++ "]: ").

(** What [pick_device] makes of a line.  It takes it when the stripped
    text passes [isdigit] and [int] gives a number from 1 to the number of
    devices; it refuses it, and asks again, when the text does not pass
    [isdigit] or the number is out of range.  (The third case, text that
    passes [isdigit] but that [int] rejects, is neither.) *)
Definition valid_selection {rt : Builtins} (devices : list Device) (line : string) : bool :=
  isdigit (strip line) &&
  match int_of (strip line) with
  | Some n => (1 <=? n) && (n <=? len_devices devices)
  | None => false
  end.

Definition refused_selection {rt : Builtins} (devices : list Device) (line : string) : bool :=
  negb (isdigit (strip line)) ||
  match int_of (strip line) with
  | Some n => negb ((1 <=? n) && (n <=? len_devices devices))
  | None => false
  end.

(** The position a line names: the number [int] reads in it, less one. *)
Definition selected_index {rt : Builtins} (line : string) : nat :=
  match int_of (strip line) with
  | Some n => Z.to_nat (n - 1)
  | None => O
  end.

(** What [pick_device] writes for lines it refuses: the prompt and the
    refusal, once per line. *)
Fixpoint retries (devices : list Device) (bad : list string) : list event :=
  match bad with
  | [] => []
  | _ :: rest =>
      select_prompt devices :: Stdout ("Invalid selection." ++ newline) :: retries devices rest
  end.

(** The fixed command of a subcommand that has one. *)
Definition literal_of (args : command) : option string :=
  match args with
  | CmdUnbind _ => Some "unbind"
  | CmdStatus _ => Some "status"
  | CmdBroadcastOn _ => Some "broadcast on"
  | CmdBroadcastOff _ => Some "broadcast off"
  | _ => None
  end.

(** The fixed command of an entry of the action menu that has one. *)
Definition menu_literal (a : string) : option string :=
  if String.eqb a "2" then Some "status"
  else if String.eqb a "3" then Some "unbind"
  else if String.eqb a "4" then Some "broadcast off"
  else if String.eqb a "5" then Some "broadcast on"
  else None.

(** The one datagram of a command, when the local socket binds. *)
Definition command_datagrams (net : network) (d : Device) (cmd : string)
  : list (list byte * string * Z) :=
  match os_bind net 0 with
  | None => [(list_byte_of_string cmd, ip d, port d)]
  | Some _ => []
  end.

(** The line [list] prints for a device. *)
Definition list_line (d : Device) : string :=
  name d ++ tab ++ "ip=" ++ ip d ++ tab ++ "rx_port=" ++ Py.str_int (port d).

(** All the text a trace writes to standard output. *)
Fixpoint stdout_text (tr : list event) : string :=
  match tr with
  | [] => ""
  | Stdout text :: rest => text ++ stdout_text rest
  | Sendto _ _ _ :: rest => stdout_text rest
  end.

(** What [listen_logs] writes for a datagram: its text, closed by a line
    feed when it does not end in one. *)
Definition log_line (data : list byte) : string :=
  let txt := Py.decode_utf8 (firstn (Z.to_nat 65535) data) in
  if Py.endswith txt newline then txt else txt ++ newline.

Definition is_remove (ev : mdns_event) : bool :=
  match ev with RemoveService _ => true | _ => false end.

(** The suffix [_info_to_device] cuts the instance name at. *)
Definition service_suffix : string := "._esp32udplog._udp.local.".

(** The command asks the user to choose a device. *)
Definition is_interactive (args : command) : bool :=
  match args with
  | CmdPick _ => true
  | _ => match device_arg args with
         | Some device => String.eqb device "pick"
         | None => false
         end
  end.

(** The exceptions the tool's own code keeps in or confines: a timeout of
    the socket and an index out of range never end a run, and the [EOFError]
    of [input] ends only a run that asks the user.  Of the other exceptions
    nothing is said. *)
Definition expected_exn (args : command) (e : exn) : Prop :=
  match e with
  | SocketTimeout | IndexError => False
  | EOFError => is_interactive args = true
  | SystemExit _ | OSError _ | ValueError | KeyboardInterrupt => True
  end.

(** On this network the computation raises nothing but what [P] allows. *)
Definition raises_within (net : network) (P : exn -> Prop) {A} (m : M A) : Prop :=
  forall w e, fst (m net w) = Raise e -> P e.

(** The line, once stripped, is one of the five entries of the action
    menu. *)
Definition valid_action {rt : Builtins} (line : string) : bool :=
  existsb (String.eqb (strip line)) ["1"; "2"; "3"; "4"; "5"].

(** The datagrams of an entry of the action menu. *)
Definition action_datagrams (net : network) (a : string) (d : Device) (tx_port : Z)
  : list (list byte * string * Z) :=
  match menu_literal a with
  | Some cmd => command_datagrams net d cmd
  | None => if String.eqb a "1" then local_bind_datagrams net d tx_port else []
  end.

(** A number of 4301 digits, one more than [int] reads. *)
Definition long_number : string := string_of_list_ascii (repeat "1"%char 4301).

(** * Properties *)

(** ** Order on strings and the stable sort *)

Lemma ascii_compare_spec (a b : ascii) :
  CompareSpec (a = b) (N_of_ascii a < N_of_ascii b)%N (N_of_ascii b < N_of_ascii a)%N
              (Ascii.compare a b).
Proof.
  unfold Ascii.compare.
  destruct (N.compare_spec (N_of_ascii a) (N_of_ascii b)) as [E | L | G];
    constructor; try assumption.
  rewrite <- (ascii_N_embedding a), <- (ascii_N_embedding b), E; reflexivity.
Qed.

Lemma string_leb_trans (a b c : string) :
  String.leb a b = true -> String.leb b c = true -> String.leb a c = true.
Proof.
  unfold String.leb.
  revert b c; induction a as [| x a IH]; intros [| y b] [| z c]; simpl;
    try reflexivity; try discriminate.
  destruct (ascii_compare_spec x y) as [-> | Lxy | Gxy]; try discriminate.
  - destruct (ascii_compare_spec y z) as [-> | Lyz | Gyz]; try discriminate.
    + apply IH.
    + reflexivity.
  - intros _.
    destruct (ascii_compare_spec y z) as [-> | Lyz | Gyz]; try discriminate.
    + destruct (ascii_compare_spec x z) as [E | L | G]; try reflexivity; subst; lia.
    + destruct (ascii_compare_spec x z) as [E | L | G]; try reflexivity; subst; lia.
Qed.

Section SortFacts.
Context {A : Type} (key : A -> string).

Lemma key_le_trans (x y z : A) : key_le key x y -> key_le key y z -> key_le key x z.
Proof. unfold key_le; apply string_leb_trans. Qed.

Lemma insert_by_perm (x : A) (l : list A) :
  Permutation (x :: l) (insert_by key x l).
Proof.
  induction l as [| y l IH]; simpl.
  - apply Permutation_refl.
  - destruct (String.leb (key x) (key y)).
    + apply Permutation_refl.
    + eapply perm_trans; [apply perm_swap | apply perm_skip, IH].
Qed.

Lemma sort_by_perm (l : list A) : Permutation l (sort_by key l).
Proof.
  induction l as [| x l IH]; simpl.
  - constructor.
  - eapply perm_trans; [apply perm_skip, IH | apply insert_by_perm].
Qed.

Lemma insert_by_sorted (x : A) (l : list A) :
  StronglySorted (key_le key) l -> StronglySorted (key_le key) (insert_by key x l).
Proof.
  induction 1 as [| y l Hs IH Hy]; simpl.
  - repeat constructor.
  - destruct (String.leb (key x) (key y)) eqn:E.
    + constructor; [constructor; assumption |].
      constructor; [exact E |].
      eapply Forall_impl; [| exact Hy].
      intros z Hz; eapply key_le_trans; [exact E | exact Hz].
    + constructor; [exact IH |].
      assert (Hyx : key_le key y x).
      { destruct (String.leb_total (key x) (key y)) as [H | H];
          [rewrite H in E; discriminate | exact H]. }
      eapply Permutation_Forall; [apply insert_by_perm |].
      constructor; assumption.
Qed.

Lemma sort_by_sorted (l : list A) : StronglySorted (key_le key) (sort_by key l).
Proof.
  induction l as [| x l IH]; simpl; [constructor | apply insert_by_sorted, IH].
Qed.

(** Stability: among the elements of one key, the order of the list is
    kept. *)
Lemma insert_by_stable (k : string) (x : A) (l : list A) :
  StronglySorted (key_le key) l ->
  filter (fun d => String.eqb (key d) k) (insert_by key x l)
  = filter (fun d => String.eqb (key d) k) (x :: l).
Proof.
  induction 1 as [| y l Hs IH Hy]; [reflexivity |].
  cbn [insert_by].
  destruct (String.leb (key x) (key y)) eqn:E; [reflexivity |].
  cbn [filter] in *. rewrite IH.
  destruct (String.eqb_spec (key x) k) as [Hx | Hx];
    destruct (String.eqb_spec (key y) k) as [Hk | Hk]; try reflexivity.
  rewrite Hx, Hk in E.
  destruct (String.leb_total k k) as [H | H]; rewrite H in E; discriminate.
Qed.

Lemma sort_by_stable (k : string) (l : list A) :
  filter (fun d => String.eqb (key d) k) (sort_by key l)
  = filter (fun d => String.eqb (key d) k) l.
Proof.
  induction l as [| x l IH]; [reflexivity |].
  cbn [sort_by fold_right].
  rewrite insert_by_stable by apply sort_by_sorted.
  cbn [filter]. fold (sort_by key l). rewrite IH. reflexivity.
Qed.
End SortFacts.

(** ** The listener's dictionary *)

Lemma listener_step_event (devices : dict) (ev : mdns_event) :
  listener_step devices ev =
  match event_device ev with
  | Some dev => dict_set (name dev) dev devices
  | None => devices
  end.
Proof. destruct ev; reflexivity. Qed.

Lemma first_ipv4_none (addrs : list string) :
  forallb (Py.str_in ":") addrs = true -> first_ipv4 addrs = "".
Proof.
  induction addrs as [| a addrs IH]; simpl; [reflexivity |].
  intros H; apply andb_prop in H as [Ha Hr].
  rewrite Ha; simpl; auto.
Qed.

Lemma first_ipv4_no_colon (addrs : list string) :
  Py.str_in ":" (first_ipv4 addrs) = false.
Proof.
  induction addrs as [| a addrs IH]; simpl; [reflexivity |].
  destruct (Py.str_in ":" a) eqn:E; simpl; assumption.
Qed.

Lemma first_ipv4_in (addrs : list string) :
  first_ipv4 addrs <> "" -> In (first_ipv4 addrs) addrs.
Proof.
  induction addrs as [| a addrs IH]; simpl; [congruence |].
  destruct (Py.str_in ":" a); simpl; auto.
Qed.

Lemma info_to_device_ipv4 (info : option ServiceInfo) (fqdn : string) (d : Device) :
  _info_to_device info fqdn = Some d ->
  ip d <> "" /\ Py.str_in ":" (ip d) = false /\
  exists i, info = Some i /\ In (ip d) (parsed_addresses i).
Proof.
  unfold _info_to_device. destruct info as [i |]; [| discriminate].
  destruct (Py.truthy (first_ipv4 (parsed_addresses i))) eqn:T; cbn [negb]; [| discriminate].
  intros H; injection H as <-; cbn [ip].
  assert (Hne : first_ipv4 (parsed_addresses i) <> "").
  { intros E; rewrite E in T; discriminate. }
  split; [exact Hne |]. split; [apply first_ipv4_no_colon |].
  exists i; split; [reflexivity | apply first_ipv4_in, Hne].
Qed.

Lemma lacks_ipv4_no_device (ev : mdns_event) :
  lacks_ipv4 ev = true -> event_device ev = None.
Proof.
  destruct ev as [fqdn [i |] | fqdn [i |] | fqdn]; simpl; try reflexivity;
    intros H; rewrite (first_ipv4_none _ H); reflexivity.
Qed.

Lemma dict_set_keys (k : string) (v : Device) (d : dict) (k' : string) :
  In k' (map fst (dict_set k v d)) <-> k' = k \/ In k' (map fst d).
Proof.
  induction d as [| [k0 v0] d IH]; simpl.
  - intuition congruence.
  - destruct (String.eqb_spec k0 k) as [-> | Hne]; simpl.
    + intuition congruence.
    + rewrite IH; intuition congruence.
Qed.

Lemma dict_set_ok (v : Device) (d : dict) :
  dict_ok d -> dict_ok (dict_set (name v) v d).
Proof.
  intros [Hnd Hk]; split.
  - induction d as [| [k0 v0] d IH]; simpl.
    + repeat constructor; simpl; tauto.
    + inversion Hnd as [| ? ? Hnot Hnd']; subst.
      inversion Hk as [| ? ? _ Hk']; subst.
      destruct (String.eqb_spec k0 (name v)) as [E | Hne]; simpl.
      * constructor; assumption.
      * constructor; [| apply IH; assumption].
        rewrite dict_set_keys; intros [E | Hin]; [congruence | contradiction].
  - induction Hk as [| [k0 v0] d Hkv Hk IH]; simpl.
    + repeat constructor.
    + inversion Hnd; subst.
      destruct (String.eqb_spec k0 (name v)) as [E | Hne].
      * constructor; [exact E | assumption].
      * constructor; [assumption | apply IH; assumption].
Qed.

Lemma dict_set_values (P : Device -> Prop) (k : string) (v : Device) (d : dict) :
  P v -> Forall P (dict_values d) -> Forall P (dict_values (dict_set k v d)).
Proof.
  unfold dict_values; intros Hv; induction d as [| [k0 v0] d IH]; simpl; intros H.
  - repeat constructor; assumption.
  - inversion H; subst.
    destruct (String.eqb k0 k); simpl; constructor; auto.
Qed.

Lemma listener_fold_ok (evs : list mdns_event) (d : dict) :
  dict_ok d -> dict_ok (fold_left listener_step evs d).
Proof.
  revert d; induction evs as [| ev evs IH]; simpl; intros d Hd; [assumption |].
  apply IH. rewrite listener_step_event.
  destruct (event_device ev); [apply dict_set_ok |]; assumption.
Qed.

Lemma listener_fold_values (P : Device -> Prop) (evs : list mdns_event) (d : dict) :
  (forall ev dev, In ev evs -> event_device ev = Some dev -> P dev) ->
  Forall P (dict_values d) -> Forall P (dict_values (fold_left listener_step evs d)).
Proof.
  revert d; induction evs as [| ev evs IH]; simpl; intros d Hev Hd; [assumption |].
  apply IH; [intros; eapply Hev; eauto |].
  rewrite listener_step_event.
  destruct (event_device ev) eqn:E; [| assumption].
  apply dict_set_values; [eapply Hev; eauto | assumption].
Qed.

Lemma listener_fold_filter (evs : list mdns_event) (d : dict) :
  fold_left listener_step (filter (fun ev => negb (lacks_ipv4 ev)) evs) d
  = fold_left listener_step evs d.
Proof.
  revert d; induction evs as [| ev evs IH]; simpl; intros d; [reflexivity |].
  destruct (lacks_ipv4 ev) eqn:E; simpl.
  - rewrite IH, (listener_step_event d ev), (lacks_ipv4_no_device ev E); reflexivity.
  - apply IH.
Qed.

Lemma dict_ok_names (d : dict) :
  dict_ok d -> NoDup (map name (dict_values d)).
Proof.
  intros [Hnd Hk]. unfold dict_values. rewrite map_map.
  erewrite map_ext_in; [exact Hnd |].
  intros kv Hin; rewrite Forall_forall in Hk; symmetry; auto.
Qed.

(** ** Discovery *)

Lemma event_device_ipv4 (ev : mdns_event) (d : Device) :
  event_device ev = Some d ->
  ip d <> "" /\ Py.str_in ":" (ip d) = false /\ lacks_ipv4 ev = false.
Proof.
  intros Hev. repeat split.
  - destruct ev; simpl in Hev; try discriminate;
      apply info_to_device_ipv4 in Hev; tauto.
  - destruct ev; simpl in Hev; try discriminate;
      apply info_to_device_ipv4 in Hev; tauto.
  - destruct (lacks_ipv4 ev) eqn:E; [| reflexivity].
    rewrite (lacks_ipv4_no_device ev E) in Hev; discriminate.
Qed.

(** Every record [discover] returns was stored by a callback of the
    browse. *)
Lemma discover_provenance {rt : Builtins} (evs : list mdns_event) (d : Device) :
  In d (discover evs) -> exists ev, In ev evs /\ event_device ev = Some d.
Proof.
  unfold discover, listener_run. revert d. apply Forall_forall.
  eapply Permutation_Forall; [apply sort_by_perm |].
  apply listener_fold_values; [| constructor].
  intros ev dev Hin Hev; exists ev; auto.
Qed.

(** C7. Whatever the browse reported, [discover] returns a list that is
    sorted by lower-cased name (the names folded by [str.lower] and compared
    as Python compares strings), holds at most one record per instance
    name, and holds only records built from an advertisement with an
    address without a colon; advertisements that did not resolve or that
    carry no such address leave no mark on the result. *)
Theorem discover_sorted_dedup_ipv4 {rt : Builtins} (evs : list mdns_event) :
  StronglySorted (fun a b => String.leb (lower (name a)) (lower (name b)) = true)
                 (discover evs) /\
  NoDup (map name (discover evs)) /\
  (forall d, In d (discover evs) ->
     ip d <> "" /\ Py.str_in ":" (ip d) = false /\
     exists ev, In ev evs /\ lacks_ipv4 ev = false /\ event_device ev = Some d) /\
  discover (filter (fun ev => negb (lacks_ipv4 ev)) evs) = discover evs.
Proof.
  split; [| split; [| split]].
  - apply (sort_by_sorted sort_key).
  - eapply Permutation_NoDup.
    + apply Permutation_map, sort_by_perm.
    + apply dict_ok_names, listener_fold_ok.
      split; constructor.
  - intros d Hin.
    destruct (discover_provenance evs d Hin) as (ev & Hev & Hdev).
    destruct (event_device_ipv4 ev d Hdev) as (Hne & Hcolon & Hlack).
    repeat split; try assumption.
    exists ev; auto.
  - unfold discover, listener_run.
    rewrite listener_fold_filter; reflexivity.
Qed.

(** The sample browse: Kitchen is advertised before attic and comes after
    it in the result, although "Kitchen" is below "attic" as it stands. *)
Lemma discover_sorted_dedup_ipv4_witness :
  discover (mdns lab_net)
  = [mkDevice "attic" "esp.local" "10.0.0.9" 9998;
     mkDevice "Kitchen" "esp.local" "10.0.0.8" 9000] /\
  String.leb (lower "attic") (lower "Kitchen") = true /\
  String.leb "attic" "Kitchen" = false.
Proof.
  split; [reflexivity |]. split; [| reflexivity].
  pose proof (proj1 (discover_sorted_dedup_ipv4 (mdns lab_net))) as Hsorted.
  change (discover (mdns lab_net))
    with [mkDevice "attic" "esp.local" "10.0.0.9" 9998;
          mkDevice "Kitchen" "esp.local" "10.0.0.8" 9000] in Hsorted.
  apply StronglySorted_inv in Hsorted as [_ Hfirst].
  exact (Forall_inv Hfirst).
Defined.

(** ** Sending a command *)

Lemma occurs_in_middle (pre s post : string) : occurs_in s (pre ++ s ++ post).
Proof. exists pre, post; reflexivity. Qed.

Lemma append_assoc (a b c : string) : (a ++ b) ++ c = a ++ b ++ c.
Proof. induction a as [| x a IH]; simpl; [reflexivity | rewrite IH; reflexivity]. Qed.

Lemma append_empty_r (a : string) : a ++ "" = a.
Proof. induction a as [| x a IH]; simpl; [reflexivity | rewrite IH; reflexivity]. Qed.

(** [send_udp_cmd], case by case on what the sockets answer. *)
Lemma send_udp_cmd_cases (ip : string) (port : Z) (cmd : string) (expect_reply : bool)
      (net : network) (w : world) :
  send_udp_cmd ip port cmd expect_reply net w =
  match os_bind net 0 with
  | Some msg => (Raise (OSError msg), w)
  | None =>
      let w' := after_send w ip port cmd in
      match os_sendto net (Py.encode_utf8 cmd) ip port with
      | Some e => (Raise (SystemExit (network_error_msg ip port e)), w')
      | None =>
          if expect_reply then
            match os_recvfrom net with
            | Datagram data => (Return (Py.decode_utf8 (firstn (Z.to_nat 2048) data)), w')
            | Timeout => (Return "", w')
            | RecvError e => (Raise (SystemExit (network_error_msg ip port e)), w')
            end
          else (Return "", w')
      end
  end.
Proof.
  unfold send_udp_cmd, bind, except_OSError, except_timeout, sock_bind, sock_sendto,
    sock_recvfrom, emit, bind, ret, raise, after_send, network_error_msg.
  destruct (os_bind net 0); [reflexivity |].
  destruct (os_sendto net (Py.encode_utf8 cmd) ip port); [reflexivity |].
  destruct expect_reply; cbv beta iota delta [negb]; [| reflexivity].
  destruct (os_recvfrom net); reflexivity.
Qed.

(** [print(send_udp_cmd(...) or fallback)], case by case. *)
Lemma send_and_print_cases (d : Device) (cmd fallback : string) (net : network) (w : world) :
  send_and_print d cmd fallback net w =
  match send_udp_cmd (ip d) (port d) cmd true net w with
  | (Return r, w') => (Return tt, after_print w' (Py.or_else r fallback))
  | (Raise e, w') => (Raise e, w')
  end.
Proof.
  unfold send_and_print, bind.
  destruct (send_udp_cmd (ip d) (port d) cmd true net w) as [[r | e] w']; reflexivity.
Qed.

(** When the local socket cannot be bound, the [OSError] of [bind] leaves
    [send_udp_cmd] as it is: the call [s.bind(("", 0))] stands before the
    [try]. *)
Lemma send_udp_cmd_bind_fails (ip : string) (port : Z) (cmd : string) (expect_reply : bool)
      (net : network) (w : world) (msg : string) :
  os_bind net 0 = Some msg ->
  send_udp_cmd ip port cmd expect_reply net w = (Raise (OSError msg), w).
Proof. intros H; rewrite send_udp_cmd_cases, H; reflexivity. Qed.

(** C3. The call of the repository's own test,
    [send_udp_cmd("10.0.0.1", 1234, "status")] with a [bind] that raises
    [OSError("permission denied")]: the error leaves the function unhandled,
    no [SystemExit] with a message about the bind is raised, and the command
    [status] for a discovered device ends the same way. *)
Theorem send_udp_cmd_bind_error_unhandled :
  send_udp_cmd "10.0.0.1" 1234 "status" true
               (with_bind_error quiet_net "permission denied") (mkWorld [] [])
  = (Raise (OSError "permission denied"), mkWorld [] []) /\
  run "cli" (CmdStatus "attic") (with_bind_error lab_net "permission denied") []
  = (Raise (OSError "permission denied"), mkWorld [] []) /\
  unhandled (fst (run "cli" (CmdStatus "attic")
                      (with_bind_error lab_net "permission denied") [])) = true.
Proof.
  split; [apply send_udp_cmd_bind_fails; reflexivity |].
  split; reflexivity.
Qed.

(** When the listening socket cannot be bound, the [OSError] of [bind]
    leaves [listen_logs] as it is: no [try] surrounds the call. *)
Lemma listen_logs_bind_fails (port : Z) (net : network) (w : world) (msg : string) :
  os_bind net port = Some msg ->
  listen_logs port net w
  = (Raise (OSError msg),
     after_print w ("Listening for UDP logs on 0.0.0.0:" ++ Py.str_int port
                    ++ " (Ctrl+C to stop)")).
Proof.
  intros H. unfold listen_logs, bind, print, write, emit, sock_bind, after_print.
  cbn [stdin trace]. rewrite H. reflexivity.
Qed.

(** C4. The call of the repository's own test, [listen_logs(9000)] with a
    [bind] that raises [OSError("address in use")]: after the banner the
    error leaves the function unhandled, and so does the command [listen]. *)
Theorem listen_logs_bind_error_unhandled :
  listen_logs 9000 (with_bind_error quiet_net "address in use") (mkWorld [] [])
  = (Raise (OSError "address in use"),
     mkWorld [] [Stdout ("Listening for UDP logs on 0.0.0.0:9000 (Ctrl+C to stop)" ++ newline)]) /\
  unhandled (fst (run "cli" (CmdListen 9000)
                      (with_bind_error quiet_net "address in use") [])) = true.
Proof.
  split; [apply (listen_logs_bind_fails 9000); reflexivity | reflexivity].
Qed.

(** C5. Once the local socket is bound, an [OSError] of [sendto] ends
    [send_udp_cmd] with [SystemExit] and one message, in which the target
    address, the target port and the text of the error occur; the callers do
    not handle it, so nothing is printed after the attempt. *)
Theorem send_failure_message (target : string) (tport : Z) (cmd : string)
        (expect_reply : bool) (net : network) (w : world) (e : string) :
  os_bind net 0 = None ->
  os_sendto net (Py.encode_utf8 cmd) target tport = Some e ->
  exists msg,
    send_udp_cmd target tport cmd expect_reply net w
    = (Raise (SystemExit msg), after_send w target tport cmd) /\
    (forall d fallback,
        ip d = target -> port d = tport ->
        send_and_print d cmd fallback net w
        = (Raise (SystemExit msg), after_send w target tport cmd)) /\
    msg = "Network error sending command to " ++ target ++ ":" ++ Py.str_int tport
          ++ ": " ++ e /\
    occurs_in target msg /\ occurs_in (Py.str_int tport) msg /\ occurs_in e msg.
Proof.
  intros Hb Hs. exists (network_error_msg target tport e).
  assert (Hc : forall x, send_udp_cmd target tport cmd x net w
                         = (Raise (SystemExit (network_error_msg target tport e)),
                            after_send w target tport cmd)).
  { intros x; rewrite send_udp_cmd_cases, Hb, Hs; reflexivity. }
  split; [apply Hc |]. split.
  - intros d fallback <- <-. rewrite send_and_print_cases, Hc; reflexivity.
  - unfold network_error_msg. split; [reflexivity |]. repeat split.
    + apply occurs_in_middle.
    + exists ("Network error sending command to " ++ target ++ ":"), (": " ++ e).
      rewrite !append_assoc; reflexivity.
    + exists ("Network error sending command to " ++ target ++ ":" ++ Py.str_int tport
              ++ ": "), "".
      rewrite append_empty_r, !append_assoc; reflexivity.
Qed.

Lemma send_failure_message_witness :
  exists msg,
    send_udp_cmd "10.0.0.2" 4321 "status" true
                 (with_send_error quiet_net "network unreachable") (mkWorld [] [])
    = (Raise (SystemExit msg), after_send (mkWorld [] []) "10.0.0.2" 4321 "status") /\
    msg = "Network error sending command to 10.0.0.2:4321: network unreachable".
Proof.
  destruct (send_failure_message "10.0.0.2" 4321 "status" true
              (with_send_error quiet_net "network unreachable") (mkWorld [] [])
              "network unreachable" eq_refl eq_refl)
    as (msg & Hrun & _ & Hmsg & _).
  exists msg; split; [exact Hrun | exact Hmsg].
Defined.

(** ** Resolving the device *)

Lemma first_match_some (p : Device -> bool) (devices : list Device) (d : Device) :
  first_match p devices = Some d -> In d devices /\ p d = true.
Proof.
  induction devices as [| x devices IH]; simpl; [discriminate |].
  destruct (p x) eqn:E.
  - intros H; injection H as <-; auto.
  - intros H; destruct (IH H); auto.
Qed.

Lemma first_match_none (p : Device -> bool) (devices : list Device) :
  first_match p devices = None -> forall d, In d devices -> p d = false.
Proof.
  induction devices as [| x devices IH]; simpl; [contradiction |].
  destruct (p x) eqn:E; [discriminate |].
  intros H d [<- | Hin]; auto.
Qed.

Lemma first_match_finds (p : Device -> bool) (devices : list Device) (d0 : Device) :
  In d0 devices -> p d0 = true -> exists d, first_match p devices = Some d.
Proof.
  intros Hin Hp. destruct (first_match p devices) as [d |] eqn:E; [eauto |].
  rewrite (first_match_none p devices E d0 Hin) in Hp; discriminate.
Qed.



(** ** Computations without an exchange *)

Lemma sent_app (tr1 tr2 : list event) : sent (tr1 ++ tr2) = (sent tr1 ++ sent tr2)%list.
Proof.
  induction tr1 as [| [text | data ip port] tr1 IH]; simpl; [reflexivity | exact IH |].
  rewrite IH; reflexivity.
Qed.

Lemma sent_stdout (tr : list event) (text : string) : sent (tr ++ [Stdout text]) = sent tr.
Proof. rewrite sent_app; simpl; apply app_nil_r. Qed.

Lemma sent_menu_events (i : Z) (devices : list Device) : sent (menu_events i devices) = [].
Proof. revert i; induction devices as [| d devices IH]; intros i; simpl; auto. Qed.

Lemma no_exchange_ret {A} (a : A) : no_exchange (ret a).
Proof. intros net net' w _; split; reflexivity. Qed.

Lemma no_exchange_raise {A} (e : exn) : no_exchange (@raise A e).
Proof. intros net net' w _; split; reflexivity. Qed.

Lemma no_exchange_print (s : string) : no_exchange (print s).
Proof. intros net net' w _; split; [reflexivity | apply sent_stdout]. Qed.

Lemma no_exchange_write (s : string) : no_exchange (write s).
Proof. intros net net' w _; split; [reflexivity | apply sent_stdout]. Qed.

Lemma no_exchange_bind {A B} (m : M A) (k : A -> M B) :
  no_exchange m -> (forall a, no_exchange (k a)) -> no_exchange (bind m k).
Proof.
  intros Hm Hk net net' w Hagree. unfold bind.
  destruct (Hm net net' w Hagree) as [Hnet Hsent]. rewrite <- Hnet.
  destruct (m net w) as [[a | e] w1]; cbn [snd] in *.
  - destruct (Hk a net net' w1 Hagree) as [Hnet' Hsent'].
    split; [exact Hnet' | rewrite Hsent'; exact Hsent].
  - split; [reflexivity | exact Hsent].
Qed.

Lemma print_menu_run (i : Z) (devices : list Device) (net : network) (w : world) :
  print_menu i devices net w
  = (Return tt, mkWorld (stdin w) (trace w ++ menu_events i devices)).
Proof.
  revert i w; induction devices as [| d devices IH]; intros i w; simpl.
  - unfold ret. rewrite app_nil_r. destruct w; reflexivity.
  - unfold bind, print, write, emit. rewrite IH. cbn [stdin trace].
    rewrite <- app_assoc. reflexivity.
Qed.

Lemma no_exchange_print_menu (i : Z) (devices : list Device) : no_exchange (print_menu i devices).
Proof.
  intros net net' w _. rewrite !print_menu_run. split; [reflexivity |].
  cbn [snd trace]. rewrite sent_app, sent_menu_events. apply app_nil_r.
Qed.

Lemma select_loop_sent {rt : Builtins} (devices : list Device) (lines : list string)
      (tr : list event) :
  sent (trace (snd (select_loop devices lines tr))) = sent tr.
Proof.
  revert tr; induction lines as [| line lines IH]; intros tr; cbn [select_loop].
  - apply sent_stdout.
  - destruct (isdigit (strip line)); [| rewrite IH, !sent_stdout; reflexivity].
    destruct (int_of (strip line)) as [n |]; [| apply sent_stdout].
    destruct ((1 <=? n) && (n <=? len_devices devices));
      [| rewrite IH, !sent_stdout; reflexivity].
    destruct (nth_error devices (Z.to_nat (n - 1))); apply sent_stdout.
Qed.

Lemma no_exchange_pick_device {rt : Builtins}
      (devices : list Device) : no_exchange (pick_device devices).
Proof.
  destruct devices as [| d devices]; [apply no_exchange_raise |].
  unfold pick_device. apply no_exchange_bind; [apply no_exchange_print_menu |].
  intros _ net net' w _; split; [reflexivity | apply select_loop_sent].
Qed.

Lemma no_exchange_resolve {rt : Builtins}
      (argv0 : string) (devices : list Device) (wanted : string) :
  no_exchange (resolve argv0 devices wanted).
Proof.
  unfold resolve. destruct (String.eqb wanted "pick"); [apply no_exchange_pick_device |].
  destruct (first_match _ devices); [apply no_exchange_ret |].
  destruct (first_match _ devices); [apply no_exchange_ret | apply no_exchange_raise].
Qed.

Lemma choose_loop_sent {rt : Builtins} (lines : list string) (tr : list event) :
  sent (trace (snd (choose_loop lines tr))) = sent tr.
Proof.
  revert tr; induction lines as [| line lines IH]; intros tr; cbn [choose_loop].
  - apply sent_stdout.
  - destruct (existsb (String.eqb (strip line)) ["1"; "2"; "3"; "4"; "5"]).
    + apply sent_stdout.
    + rewrite IH. apply sent_stdout.
Qed.

Lemma choose_loop_choice {rt : Builtins} (lines : list string) (tr : list event) (a : string) :
  fst (choose_loop lines tr) = Return a -> In a ["1"; "2"; "3"; "4"; "5"].
Proof.
  revert tr; induction lines as [| line lines IH]; intros tr; cbn [choose_loop].
  - discriminate.
  - destruct (existsb (String.eqb (strip line)) ["1"; "2"; "3"; "4"; "5"]) eqn:E.
    + cbn [fst]. intros H; injection H as <-.
      apply existsb_exists in E as (x & Hin & Hx).
      apply String.eqb_eq in Hx; subst; exact Hin.
    + apply IH.
Qed.

Lemma no_exchange_print_devices (devices : list Device) : no_exchange (print_devices devices).
Proof.
  induction devices as [| d devices IH]; simpl; [apply no_exchange_ret |].
  apply no_exchange_bind; [apply no_exchange_print | intros _; exact IH].
Qed.

(** C9, as stated, fails: a device called [pick] is resolved by name
    when the argument differs from its name in case.  On a list with such a
    device the argument "PICK" returns it through the second loop, without
    a menu or a prompt. *)
Lemma resolve_pick_counterexample :
  resolve "cli" pick_named_devices "PICK" quiet_net (mkWorld ["1"] [])
  = (Return (mkDevice "pick" "pick.local" "10.0.0.12" 9998), mkWorld ["1"] []).
Proof. reflexivity. Qed.

(** C9, amended. The literal argument [pick] never reaches the name
    matching: [resolve] hands over to the interactive selection whatever the
    list holds, also when one of its devices is itself called [pick], and
    without an answer on standard input it returns no device at all.  An
    argument other than [pick] that equals [pick] once lower-cased, and
    that is no device's name, does resolve by name, to a device whose
    lower-cased name is that of [pick], without asking. *)
Theorem resolve_pick_is_interactive {rt : Builtins} (argv0 : string)
        (devices : list Device) (net : network) (w : world) :
  resolve argv0 devices "pick" net w = pick_device devices net w /\
  (stdin w = [] -> forall d, fst (resolve argv0 devices "pick" net w) <> Return d) /\
  (forall wanted d,
      wanted <> "pick" ->
      lower wanted = lower "pick" ->
      In d devices -> name d = "pick" ->
      (forall d0, In d0 devices -> name d0 <> wanted) ->
      exists d', resolve argv0 devices wanted net w = (Return d', w) /\
                 In d' devices /\ lower (name d') = lower "pick").
Proof.
  split; [reflexivity |]. split.
  - intros Hin d. change (resolve argv0 devices "pick") with (pick_device devices).
    destruct devices as [| d0 devices]; [discriminate |].
    unfold pick_device, bind. rewrite print_menu_run. cbn [stdin trace].
    rewrite Hin. discriminate.
  - intros wanted d Hne Hlow Hin Hname Hno. unfold resolve.
    destruct (String.eqb_spec wanted "pick") as [E | _]; [contradiction |].
    destruct (first_match (fun x => String.eqb (name x) wanted) devices) as [x |] eqn:E1.
    { apply first_match_some in E1 as [Hx1 Hx2].
      apply String.eqb_eq in Hx2. destruct (Hno x Hx1 Hx2). }
    destruct (first_match_finds
                (fun x => String.eqb (lower (name x)) (lower wanted)) devices d Hin)
      as [d' Hd']; [apply String.eqb_eq; rewrite Hname, Hlow; reflexivity |].
    rewrite Hd'. exists d'.
    apply first_match_some in Hd' as [Hd1 Hd2].
    apply String.eqb_eq in Hd2. rewrite Hlow in Hd2. auto.
Qed.

(** With a device called [pick] in the list, the argument [pick] and the
    answer [1] select the other device, and the argument "Pick" returns the
    device called [pick]. *)
Lemma resolve_pick_is_interactive_witness :
  resolve "cli" pick_named_devices "pick" quiet_net (mkWorld ["1"] [])
  = (Return (mkDevice "attic" "attic.local" "10.0.0.9" 9998),
     mkWorld [] [Stdout (menu_line 1 (mkDevice "attic" "attic.local" "10.0.0.9" 9998) ++ newline);
                 Stdout (menu_line 2 (mkDevice "pick" "pick.local" "10.0.0.12" 9998) ++ newline);
                 Stdout "Select device [1-2]: "]) /\
  resolve "cli" pick_named_devices "Pick" quiet_net (mkWorld ["1"] [])
  = (Return (mkDevice "pick" "pick.local" "10.0.0.12" 9998), mkWorld ["1"] []).
Proof.
  split.
  - rewrite (proj1 (resolve_pick_is_interactive "cli" pick_named_devices quiet_net
                                                (mkWorld ["1"] []))).
    reflexivity.
  - destruct (proj2 (proj2 (resolve_pick_is_interactive (rt := ascii_builtins) "cli"
                              pick_named_devices quiet_net (mkWorld ["1"] [])))
                    "Pick" (mkDevice "pick" "pick.local" "10.0.0.12" 9998))
      as (d' & Hrun & Hin & Hlow).
    + discriminate.
    + reflexivity.
    + right; left; reflexivity.
    + reflexivity.
    + intros d0 [<- | [<- | []]]; discriminate.
    + rewrite Hrun. destruct Hin as [<- | [<- | []]]; [discriminate Hlow | reflexivity].
Defined.

(** ** Nothing discovered *)

(** C6, as stated, fails on two runs with nothing discovered: [list]
    prints its notice and returns, so the exit status is 0; and
    [status my-device] exits with the message of a failed resolution, in
    which "No devices found" does not occur. *)
Lemma empty_discovery_counterexample :
  discover (mdns quiet_net) = [] /\
  run "cli" CmdList quiet_net [] = (Return tt, mkWorld [] [Stdout ("No devices found." ++ newline)]) /\
  exit_status (fst (run "cli" CmdList quiet_net [])) = 0 /\
  fst (run "cli" (CmdStatus "my-device") quiet_net [])
  = Raise (SystemExit "Device not found: my-device. Run: cli list") /\
  Py.str_in "No devices found" "Device not found: my-device. Run: cli list" = false.
Proof. repeat split; reflexivity. Qed.

(** C6, amended. With nothing discovered, every command but [listen] ends
    without an unhandled exception and before any input or output other
    than this: [list] prints "No devices found." and returns, with exit
    status 0; [pick], and a command whose device argument is the literal
    [pick], exit with status 1 and the message that starts "No devices
    found."; a command with any other device argument exits with status 1
    and the message "Device not found: <name>. Run: <argv0> list". *)
Theorem empty_discovery_outcome {rt : Builtins} (argv0 : string) (args : command) (net : network)
        (lines : list string) :
  discover (mdns net) = [] ->
  is_listen args = false ->
  run argv0 args net lines =
  match args with
  | CmdList => (Return tt, mkWorld lines [Stdout ("No devices found." ++ newline)])
  | _ =>
      (Raise (SystemExit
                match device_arg args with
                | Some device =>
                    if String.eqb device "pick"
                    then "No devices found. (mDNS blocked? component not advertising _esp32udplog._udp?)"
                    else "Device not found: " ++ device ++ ". Run: " ++ argv0 ++ " list"
                | None =>
                    "No devices found. (mDNS blocked? component not advertising _esp32udplog._udp?)"
                end),
       mkWorld lines [])
  end /\
  unhandled (fst (run argv0 args net lines)) = false /\
  exit_status (fst (run argv0 args net lines)) = match args with CmdList => 0 | _ => 1 end.
Proof.
  intros Hempty Hlisten.
  assert (Hrun : run argv0 args net lines = dispatch argv0 args [] net (mkWorld lines [])).
  { destruct args; try discriminate;
      unfold run, main, bind, discover_now; rewrite Hempty; reflexivity. }
  rewrite Hrun.
  destruct args; try discriminate; cbn [is_listen device_arg dispatch];
    try (split; [reflexivity | split; reflexivity]);
    unfold bind, resolve; destruct (String.eqb device "pick");
    (split; [reflexivity | split; reflexivity]).
Qed.

Lemma empty_discovery_outcome_witness :
  run "cli" (CmdStatus "my-device") quiet_net ["1"]
  = (Raise (SystemExit "Device not found: my-device. Run: cli list"), mkWorld ["1"] []).
Proof.
  exact (proj1 (empty_discovery_outcome "cli" (CmdStatus "my-device") quiet_net ["1"]
                                        eq_refl eq_refl)).
Defined.

(** ** The payload of [bind] *)

Lemma send_and_print_sent (d : Device) (cmd fallback : string) (net : network) (w : world) :
  sent (trace (snd (send_and_print d cmd fallback net w)))
  = (sent (trace w)
     ++ match os_bind net 0 with
        | None => [(Py.encode_utf8 cmd, ip d, port d)]
        | Some _ => []
        end)%list.
Proof.
  rewrite send_and_print_cases, send_udp_cmd_cases.
  destruct (os_bind net 0); [symmetry; apply app_nil_r |].
  cbv zeta.
  destruct (os_sendto net (Py.encode_utf8 cmd) (ip d) (port d));
    [| destruct (os_recvfrom net)];
    cbn [snd after_print after_send trace stdin];
    rewrite ?sent_stdout, sent_app; reflexivity.
Qed.

Lemma main_bind_sent {rt : Builtins}
      (d : Device) (pc_ip : string) (tx_port : Z) (net : network) (w : world) :
  sent (trace (snd (main_bind d pc_ip tx_port net w)))
  = (sent (trace w) ++ bind_datagrams net d pc_ip tx_port)%list.
Proof.
  unfold main_bind, bind_datagrams, bind_address, bind.
  destruct (Py.truthy (strip pc_ip)).
  - unfold ret. rewrite send_and_print_sent.
    destruct (os_bind net 0); reflexivity.
  - unfold get_local_ip_for_target.
    destruct (os_connect net (ip d) 9) as [local | e].
    + rewrite send_and_print_sent. destruct (os_bind net 0); reflexivity.
    + symmetry; apply app_nil_r.
Qed.

Lemma pick_bind_sent (d : Device) (tx_port : Z) (net : network) (w : world) :
  sent (trace (snd (pick_action "1" d tx_port net w)))
  = (sent (trace w) ++ local_bind_datagrams net d tx_port)%list.
Proof.
  unfold pick_action, local_bind_datagrams, bind. cbn [String.eqb Ascii.eqb Bool.eqb].
  unfold get_local_ip_for_target.
  destruct (os_connect net (ip d) 9) as [local | e].
  - rewrite send_and_print_sent. destruct (os_bind net 0); reflexivity.
  - symmetry; apply app_nil_r.
Qed.

(** C1. Every [bind] hands to [sendto] at most one datagram, and that one
    is the text [bind], one space, the address, one space and the decimal
    port, with nothing after it: for the subcommand the address is the
    stripped [--pc-ip], or the local address when that is empty; for the
    first action of the pick menu it is the local address. *)
Theorem bind_payload_exact {rt : Builtins} :
  (forall d pc_ip tx_port net w,
      sent (trace (snd (main_bind d pc_ip tx_port net w)))
      = (sent (trace w) ++ bind_datagrams net d pc_ip tx_port)%list) /\
  (forall d tx_port net w,
      sent (trace (snd (pick_action "1" d tx_port net w)))
      = (sent (trace w) ++ local_bind_datagrams net d tx_port)%list) /\
  (forall argv0 device pc_ip tx_port net lines,
      sent (trace (snd (run argv0 (CmdBind device pc_ip tx_port) net lines)))
      = match fst (resolve argv0 (discover (mdns net)) device net (mkWorld lines [])) with
        | Return d => bind_datagrams net d pc_ip tx_port
        | Raise _ => []
        end).
Proof.
  split; [exact main_bind_sent |]. split; [exact pick_bind_sent |].
  intros argv0 device pc_ip tx_port net lines.
    unfold run, main, bind, discover_now, dispatch, bind.
    pose proof (no_exchange_resolve argv0 (discover (mdns net)) device net net
                  (mkWorld lines [])) as Hres.
    destruct Hres as [_ Hres]; [repeat split |].
    destruct (resolve argv0 (discover (mdns net)) device net (mkWorld lines []))
      as [[d | e] w1]; cbn [fst snd] in *.
    + rewrite main_bind_sent, Hres. reflexivity.
    + exact Hres.
Qed.

(** On the sample browse: the blanks around [--pc-ip] are not sent, and a
    blank [--pc-ip] gives way to the local address. *)
Lemma bind_payload_exact_witness :
  sent (trace (snd (run "cli" (CmdBind "kitchen" "  10.0.0.5 " 9999) lab_net [])))
  = [(list_byte_of_string "bind 10.0.0.5 9999", "10.0.0.8", 9000)] /\
  sent (trace (snd (run "cli" (CmdBind "kitchen" "   " 9999) lab_net [])))
  = [(list_byte_of_string "bind 10.0.0.2 9999", "10.0.0.8", 9000)] /\
  sent (trace (snd (pick_action "1" (mkDevice "attic" "esp.local" "10.0.0.9" 9998) 9999
                                lab_net (mkWorld [] []))))
  = [(list_byte_of_string "bind 10.0.0.2 9999", "10.0.0.9", 9998)].
Proof.
  rewrite !(proj2 (proj2 (bind_payload_exact (rt := ascii_builtins)))).
  rewrite (proj1 (proj2 (bind_payload_exact (rt := ascii_builtins)))).
  repeat split; reflexivity.
Defined.

Example bind_run_sample :
  sent (trace (snd (run "cli" (CmdBind "kitchen" " 10.0.0.5 " 9999) lab_net [])))
  = [(list_byte_of_string "bind 10.0.0.5 9999", "10.0.0.8", 9000)].
Proof. reflexivity. Qed.

(** ** No reply *)

Lemma agree_refl (net : network) : agree net net.
Proof. repeat split. Qed.

Lemma no_exchange_get_local_ip (target_ip : string) :
  no_exchange (get_local_ip_for_target target_ip).
Proof.
  intros net net' w (_ & Hc & _). unfold get_local_ip_for_target. rewrite <- Hc.
  destruct (os_connect net target_ip 9); split; reflexivity.
Qed.

Lemma no_exchange_choose {rt : Builtins} : no_exchange (fun _ w => choose_loop (stdin w) (trace w)).
Proof. intros net net' w _; split; [reflexivity | apply choose_loop_sent]. Qed.

Lemma no_exchange_discover_now {rt : Builtins} : no_exchange discover_now.
Proof.
  intros net net' w (Hm & _). unfold discover_now. rewrite Hm. split; reflexivity.
Qed.

Lemma no_exchange_sock_bind (port : Z) : no_exchange (sock_bind port).
Proof.
  intros net net' w (_ & _ & Hb & _). unfold sock_bind. rewrite <- Hb.
  destruct (os_bind net port); split; reflexivity.
Qed.

Lemma no_exchange_listen_loop (rx : list (list byte)) : no_exchange (listen_loop rx).
Proof.
  induction rx as [| data rx IH]; cbn [listen_loop]; [apply no_exchange_raise |].
  apply no_exchange_bind; [apply no_exchange_write | intros _].
  apply no_exchange_bind; [| intros _; exact IH].
  destruct (negb _); [apply no_exchange_write | apply no_exchange_ret].
Qed.

Lemma no_exchange_listen_logs (port : Z) : no_exchange (listen_logs port).
Proof.
  unfold listen_logs.
  apply no_exchange_bind; [apply no_exchange_print | intros _].
  apply no_exchange_bind; [apply no_exchange_sock_bind | intros _].
  intros net net' w Hagree.
  destruct Hagree as (Hm & Hc & Hb & Hs & Hi). rewrite <- Hi.
  apply no_exchange_listen_loop. repeat split; assumption.
Qed.

Lemma silent_or_reported_bind {A} (m : M A) (k : A -> M unit) (net : network) (w : world) :
  no_exchange m ->
  (forall a w', silent_or_reported w' (k a net w')) ->
  silent_or_reported w (bind m k net w).
Proof.
  intros Hm Hk. unfold bind.
  destruct (Hm net net w (agree_refl net)) as [_ Hsent].
  destruct (m net w) as [[a | e] w1]; cbn [snd] in Hsent.
  - destruct (Hk a w1) as [Hs | Hr]; [left; congruence | right; exact Hr].
  - left; exact Hsent.
Qed.

Lemma silent_no_exchange (m : M unit) (net : network) (w : world) :
  no_exchange m -> silent_or_reported w (m net w).
Proof. intros Hm; left; apply (Hm net net w (agree_refl net)). Qed.

Section NoReply.
Context {rt : Builtins}.
Variable net : network.
Hypothesis bind_ok : os_bind net 0 = None.
Hypothesis send_ok : forall data ip port, os_sendto net data ip port = None.
Hypothesis no_reply : os_recvfrom net = Timeout.

Lemma send_udp_cmd_timeout (target : string) (tport : Z) (cmd : string) (w : world) :
  send_udp_cmd target tport cmd true net w = (Return "", after_send w target tport cmd).
Proof. rewrite send_udp_cmd_cases, bind_ok, send_ok, no_reply; reflexivity. Qed.

Lemma send_and_print_timeout (d : Device) (cmd fallback : string) (w : world) :
  send_and_print d cmd fallback net w
  = (Return tt, after_print (after_send w (ip d) (port d) cmd) fallback).
Proof. rewrite send_and_print_cases, send_udp_cmd_timeout; reflexivity. Qed.

Lemma send_and_print_reported (d : Device) (cmd fallback : string) (w : world) :
  fallback = "OK (no reply)" \/ fallback = "(no reply)" ->
  silent_or_reported w (send_and_print d cmd fallback net w).
Proof.
  intros Hf; right. rewrite send_and_print_timeout. split; [reflexivity |].
  exists (trace (after_send w (ip d) (port d) cmd)), fallback.
  split; [reflexivity | exact Hf].
Qed.

Lemma pick_action_reported (a : string) (d : Device) (tx_port : Z) (w : world) :
  silent_or_reported w (pick_action a d tx_port net w).
Proof.
  unfold pick_action.
  destruct (String.eqb a "1").
  { apply silent_or_reported_bind; [apply no_exchange_get_local_ip |].
    intros; apply send_and_print_reported; auto. }
  repeat (match goal with
          | |- context [if ?b then _ else _] => destruct b
          end; [apply send_and_print_reported; auto |]).
  apply silent_no_exchange, no_exchange_ret.
Qed.

Lemma dispatch_reported (argv0 : string) (args : command) (devices : list Device)
      (w : world) :
  silent_or_reported w (dispatch argv0 args devices net w).
Proof.
  destruct args; cbn [dispatch];
    try (apply silent_or_reported_bind; [apply no_exchange_resolve |];
         intros; try (apply send_and_print_reported; auto)).
  - destruct devices; apply silent_no_exchange;
      [apply no_exchange_print | apply no_exchange_print_devices].
  - unfold main_pick.
    apply silent_or_reported_bind; [apply no_exchange_pick_device | intros d w1].
    do 7 (apply silent_or_reported_bind; [apply no_exchange_print | intros _ ?w]).
    apply silent_or_reported_bind; [apply no_exchange_choose | intros a ?w].
    apply pick_action_reported.
  - unfold main_bind.
    apply silent_or_reported_bind.
    + destruct (Py.truthy (strip pc_ip));
        [apply no_exchange_ret | apply no_exchange_get_local_ip].
    + intros; apply send_and_print_reported; auto.
  - apply silent_no_exchange, no_exchange_ret.
Qed.

Lemma main_reported (argv0 : string) (args : command) (w : world) :
  silent_or_reported w (main argv0 args net w).
Proof.
  destruct args; cbn [main];
    try (apply silent_or_reported_bind; [apply no_exchange_discover_now |];
         intros; apply dispatch_reported).
  apply silent_no_exchange, no_exchange_listen_logs.
Qed.
End NoReply.

(** C8. When the local socket binds, the datagram leaves and no reply
    comes before the timeout, [send_udp_cmd] returns the empty string; and
    a run of the tool that sent a command ends normally, its last line one
    of the notices "OK (no reply)" and "(no reply)". *)
Theorem no_reply_is_not_failure {rt : Builtins} (argv0 : string) (args : command) (net : network)
        (lines : list string) (target : string) (tport : Z) (cmd : string) (w : world) :
  os_bind net 0 = None ->
  (forall data ip port, os_sendto net data ip port = None) ->
  os_recvfrom net = Timeout ->
  send_udp_cmd target tport cmd true net w = (Return "", after_send w target tport cmd) /\
  (sent (trace (snd (run argv0 args net lines))) <> [] ->
   reports_no_reply (run argv0 args net lines)).
Proof.
  intros Hb Hs Hr. split; [apply send_udp_cmd_timeout; assumption |].
  intros Hsent.
  destruct (main_reported net Hb Hs Hr argv0 args (mkWorld lines [])) as [Hq | Hrep].
  - destruct (Hsent Hq).
  - exact Hrep.
Qed.

Lemma no_reply_is_not_failure_witness :
  reports_no_reply (run "cli" (CmdStatus "attic") (with_recv lab_net Timeout) []).
Proof.
  refine (proj2 (no_reply_is_not_failure "cli" (CmdStatus "attic") (with_recv lab_net Timeout)
                   [] "10.0.0.9" 9998 "status" (mkWorld [] [])
                   eq_refl (fun _ _ _ => eq_refl) eq_refl) _).
  vm_compute; discriminate.
Defined.

(** ** An empty reply *)

Section SameAnswer.
Context {rt : Builtins}.
Variables net1 net2 : network.
Hypothesis nets_agree : agree net1 net2.
Hypothesis send_same :
  forall d cmd fallback w,
    send_and_print d cmd fallback net1 w = send_and_print d cmd fallback net2 w.

Lemma same_bind {A B} (m : M A) (k : A -> M B) :
  same_on net1 net2 m -> (forall a, same_on net1 net2 (k a)) -> same_on net1 net2 (bind m k).
Proof.
  intros Hm Hk w. unfold bind. rewrite <- (Hm w).
  destruct (m net1 w) as [[a | e] w1]; [apply Hk | reflexivity].
Qed.

Lemma same_no_exchange {A} (m : M A) : no_exchange m -> same_on net1 net2 m.
Proof. intros Hm w; apply (Hm net1 net2 w nets_agree). Qed.

Lemma same_pick_action (a : string) (d : Device) (tx_port : Z) :
  same_on net1 net2 (pick_action a d tx_port).
Proof.
  unfold pick_action.
  destruct (String.eqb a "1").
  { apply same_bind; [apply same_no_exchange, no_exchange_get_local_ip |].
    intros pc_ip w; apply send_same. }
  repeat (match goal with
          | |- context [if ?b then _ else _] => destruct b
          end; [intros w; apply send_same |]).
  apply same_no_exchange, no_exchange_ret.
Qed.

Lemma same_dispatch (argv0 : string) (args : command) (devices : list Device) :
  same_on net1 net2 (dispatch argv0 args devices).
Proof.
  destruct args; cbn [dispatch];
    try (apply same_bind; [apply same_no_exchange, no_exchange_resolve |];
         intros d; try (intros w; apply send_same)).
  - destruct devices; apply same_no_exchange;
      [apply no_exchange_print | apply no_exchange_print_devices].
  - unfold main_pick.
    apply same_bind; [apply same_no_exchange, no_exchange_pick_device | intros d].
    do 7 (apply same_bind; [apply same_no_exchange, no_exchange_print | intros _]).
    apply same_bind; [apply same_no_exchange, no_exchange_choose | intros a].
    apply same_pick_action.
  - unfold main_bind.
    apply same_bind.
    + destruct (Py.truthy (strip pc_ip)); apply same_no_exchange;
        [apply no_exchange_ret | apply no_exchange_get_local_ip].
    + intros a w; apply send_same.
  - apply same_no_exchange, no_exchange_ret.
Qed.

Lemma same_main (argv0 : string) (args : command) : same_on net1 net2 (main argv0 args).
Proof.
  destruct args; cbn [main];
    try (apply same_bind; [apply same_no_exchange, no_exchange_discover_now |];
         intros; apply same_dispatch).
  apply same_no_exchange, no_exchange_listen_logs.
Qed.
End SameAnswer.

Lemma send_udp_cmd_empty_reply (target : string) (tport : Z) (cmd : string)
      (net : network) (w : world) :
  send_udp_cmd target tport cmd true (with_recv net (Datagram [])) w
  = send_udp_cmd target tport cmd true (with_recv net Timeout) w.
Proof.
  rewrite !send_udp_cmd_cases. cbn [with_recv os_bind os_sendto os_recvfrom].
  destruct (os_bind net 0); [reflexivity |].
  destruct (os_sendto net (Py.encode_utf8 cmd) target tport); reflexivity.
Qed.

(** C10. A reply of zero bytes cannot be told from no reply: with either,
    [send_udp_cmd] behaves the same, and when the datagram leaves it returns
    the empty string, as it does when no reply is awaited; so the whole
    run, output included, is the same, and it prints the notice for a
    missing reply. *)
Theorem empty_reply_is_no_reply {rt : Builtins} (target : string) (tport : Z) (cmd : string)
        (net : network) (w : world) :
  send_udp_cmd target tport cmd true (with_recv net (Datagram [])) w
  = send_udp_cmd target tport cmd true (with_recv net Timeout) w /\
  (os_bind net 0 = None ->
   os_sendto net (Py.encode_utf8 cmd) target tport = None ->
   fst (send_udp_cmd target tport cmd true (with_recv net (Datagram [])) w) = Return "" /\
   fst (send_udp_cmd target tport cmd true (with_recv net Timeout) w) = Return "" /\
   fst (send_udp_cmd target tport cmd false net w) = Return "" /\
   forall d fallback,
     ip d = target -> port d = tport ->
     send_and_print d cmd fallback (with_recv net (Datagram [])) w
     = (Return tt, after_print (after_send w target tport cmd) fallback)) /\
  (forall argv0 args lines,
      run argv0 args (with_recv net (Datagram [])) lines
      = run argv0 args (with_recv net Timeout) lines).
Proof.
  split; [apply send_udp_cmd_empty_reply |]. split.
  - intros Hb Hs.
    assert (He : send_udp_cmd target tport cmd true (with_recv net (Datagram [])) w
                 = (Return "", after_send w target tport cmd)).
    { rewrite send_udp_cmd_cases. cbn [with_recv os_bind os_sendto os_recvfrom].
      rewrite Hb, Hs. reflexivity. }
    split; [rewrite He; reflexivity |].
    split; [rewrite <- send_udp_cmd_empty_reply, He; reflexivity |].
    split; [rewrite send_udp_cmd_cases, Hb, Hs; reflexivity |].
    intros d fallback <- <-. rewrite send_and_print_cases, He. reflexivity.
  - intros argv0 args lines. unfold run.
    apply same_main; [repeat split |].
    intros d c fallback w0. rewrite !send_and_print_cases.
    rewrite send_udp_cmd_empty_reply. reflexivity.
Qed.

Lemma empty_reply_is_no_reply_witness :
  run "cli" (CmdStatus "attic") (with_recv lab_net (Datagram [])) []
  = (Return tt,
     mkWorld [] [Sendto (list_byte_of_string "status") "10.0.0.9" 9998;
                 Stdout ("(no reply)" ++ newline)]) /\
  run "cli" (CmdStatus "attic") (with_recv lab_net Timeout) []
  = (Return tt,
     mkWorld [] [Sendto (list_byte_of_string "status") "10.0.0.9" 9998;
                 Stdout ("(no reply)" ++ newline)]).
Proof.
  rewrite <- (proj2 (proj2 (empty_reply_is_no_reply "10.0.0.9" 9998 "status" lab_net
                                                    (mkWorld [] [])))
                    "cli" (CmdStatus "attic") []).
  split; reflexivity.
Defined.

(** * Further properties of the code *)

(** ** The local address *)

(** X1. When the local address for the device cannot be determined,
    [get_local_ip_for_target] ends with [SystemExit] and a message in which
    the target address and the text of the error occur; a [bind] without a
    usable [--pc-ip] then ends on that message, with nothing sent and
    nothing printed. *)
Theorem local_ip_failure_message {rt : Builtins}
      (target : string) (net : network) (w : world) (e : string) :
  os_connect net target 9 = inr e ->
  get_local_ip_for_target target net w
  = (Raise (SystemExit ("Failed to determine local IP for " ++ target ++ ": " ++ e)), w) /\
  occurs_in target ("Failed to determine local IP for " ++ target ++ ": " ++ e) /\
  occurs_in e ("Failed to determine local IP for " ++ target ++ ": " ++ e) /\
  (forall d pc_ip tx_port,
      ip d = target -> strip pc_ip = "" ->
      main_bind d pc_ip tx_port net w
      = (Raise (SystemExit ("Failed to determine local IP for " ++ target ++ ": " ++ e)), w)).
Proof.
  intros Hc.
  assert (Hg : get_local_ip_for_target target net w
               = (Raise (SystemExit (local_ip_error_msg target e)), w)).
  { unfold get_local_ip_for_target. rewrite Hc. reflexivity. }
  split; [exact Hg |]. split; [apply occurs_in_middle |]. split.
  - exists ("Failed to determine local IP for " ++ target ++ ": "), "".
    rewrite append_empty_r, !append_assoc. reflexivity.
  - intros d pc_ip tx_port <- Hs. unfold main_bind, bind. rewrite Hs.
    cbn [Py.truthy]. rewrite Hg. reflexivity.
Qed.

Lemma local_ip_failure_message_witness :
  get_local_ip_for_target "203.0.113.10"
    (with_connect quiet_net (fun _ _ => inr "unreachable")) (mkWorld [] [])
  = (Raise (SystemExit "Failed to determine local IP for 203.0.113.10: unreachable"),
     mkWorld [] []).
Proof.
  exact (proj1 (local_ip_failure_message "203.0.113.10"
                  (with_connect quiet_net (fun _ _ => inr "unreachable")) (mkWorld [] [])
                  "unreachable" eq_refl)).
Defined.

Lemma pick_device_any_net {rt : Builtins} (devices : list Device) (net net' : network) (w : world) :
  pick_device devices net w = pick_device devices net' w.
Proof.
  destruct devices as [| d devices]; [reflexivity |].
  unfold pick_device, bind. rewrite !print_menu_run. reflexivity.
Qed.

Lemma resolve_any_net {rt : Builtins} (argv0 : string) (devices : list Device) (wanted : string)
      (net net' : network) (w : world) :
  resolve argv0 devices wanted net w = resolve argv0 devices wanted net' w.
Proof.
  unfold resolve. destruct (String.eqb wanted "pick"); [apply pick_device_any_net |].
  destruct (first_match _ devices); [reflexivity |].
  destruct (first_match _ devices); reflexivity.
Qed.

(** X2. With a [--pc-ip] that is not blank, [bind] does not ask the system
    for the local address: whatever [connect] would answer, also an error,
    the run is the same. *)
Theorem explicit_pc_ip_skips_detection {rt : Builtins} (argv0 device pc_ip : string) (tx_port : Z)
        (net : network) (f : string -> Z -> string + string) (lines : list string) :
  strip pc_ip <> "" ->
  run argv0 (CmdBind device pc_ip tx_port) (with_connect net f) lines
  = run argv0 (CmdBind device pc_ip tx_port) net lines.
Proof.
  intros Hp. unfold run, main, bind, discover_now, dispatch, bind.
  cbn [with_connect mdns].
  rewrite (resolve_any_net argv0 (discover (mdns net)) device (with_connect net f) net).
  destruct (resolve argv0 (discover (mdns net)) device net (mkWorld lines []))
    as [[d | e] w1]; [| reflexivity].
  unfold main_bind, bind.
  destruct (strip pc_ip) as [| c r] eqn:E; [congruence |].
  cbn [Py.truthy ret]. rewrite !send_and_print_cases, !send_udp_cmd_cases. reflexivity.
Qed.

Lemma explicit_pc_ip_skips_detection_witness :
  sent (trace (snd (run "cli" (CmdBind "attic" "10.0.0.5" 9999)
                        (with_connect lab_net (fun _ _ => inr "unreachable")) [])))
  = [(list_byte_of_string "bind 10.0.0.5 9999", "10.0.0.9", 9998)].
Proof.
  rewrite (explicit_pc_ip_skips_detection "cli" "attic" "10.0.0.5" 9999 lab_net
             (fun _ _ => inr "unreachable") []); [reflexivity | discriminate].
Defined.

(** ** Replies *)





(** X4. An [OSError] of [recvfrom] other than the timeout is fatal, and it
    is reported with the message of a failed send although the datagram has
    left: the run of the caller ends there, nothing printed. *)
Theorem reply_error_is_fatal (d : Device) (cmd fallback : string) (net : network) (w : world)
        (e : string) :
  os_bind net 0 = None ->
  os_sendto net (Py.encode_utf8 cmd) (ip d) (port d) = None ->
  os_recvfrom net = RecvError e ->
  send_and_print d cmd fallback net w
  = (Raise (SystemExit ("Network error sending command to " ++ ip d ++ ":"
                        ++ Py.str_int (port d) ++ ": " ++ e)),
     after_send w (ip d) (port d) cmd) /\
  sent (trace (after_send w (ip d) (port d) cmd))
  = (sent (trace w) ++ [(Py.encode_utf8 cmd, ip d, port d)])%list /\
  send_udp_cmd (ip d) (port d) cmd false net w = (Return "", after_send w (ip d) (port d) cmd).
Proof.
  intros Hb Hs Hr. split; [| split].
  - rewrite send_and_print_cases, send_udp_cmd_cases, Hb, Hs, Hr. reflexivity.
  - unfold after_send. cbn [trace]. rewrite sent_app. reflexivity.
  - rewrite send_udp_cmd_cases, Hb, Hs. reflexivity.
Qed.

Lemma reply_error_is_fatal_witness :
  fst (send_and_print (mkDevice "attic" "esp.local" "10.0.0.9" 9998) "status" "(no reply)"
                      (with_recv lab_net (RecvError "connection refused")) (mkWorld [] []))
  = Raise (SystemExit "Network error sending command to 10.0.0.9:9998: connection refused").
Proof.
  rewrite (proj1 (reply_error_is_fatal (mkDevice "attic" "esp.local" "10.0.0.9" 9998)
                    "status" "(no reply)"
                    (with_recv lab_net (RecvError "connection refused")) (mkWorld [] [])
                    "connection refused" eq_refl eq_refl eq_refl)).
  reflexivity.
Defined.

(** X5. Only the first 2048 bytes of a reply count: a run that receives a
    datagram and the run that receives its first 2048 bytes are the same,
    output included. *)
Theorem reply_is_cut_at_2048 {rt : Builtins} (argv0 : string) (args : command) (net : network)
        (lines : list string) (data : list byte) :
  run argv0 args (with_recv net (Datagram data)) lines
  = run argv0 args (with_recv net (Datagram (firstn (Z.to_nat 2048) data))) lines.
Proof.
  unfold run. apply same_main; [repeat split |].
  intros d cmd fallback w. rewrite !send_and_print_cases, !send_udp_cmd_cases.
  cbn [with_recv os_bind os_sendto os_recvfrom].
  rewrite firstn_firstn, Nat.min_id. reflexivity.
Qed.

Lemma is_ascii_byte (c : ascii) :
  (N_of_ascii c <? 128)%N = true -> (Py.bval (byte_of_ascii c) <? 128)%N = true.
Proof.
  intros H. unfold Py.bval.
  rewrite (Byte.to_of_N (N_of_ascii c) (eq_sym (byte_of_ascii_via_N c))). exact H.
Qed.

Lemma length_list_byte_of_string (s : string) :
  List.length (list_byte_of_string s) = String.length s.
Proof. induction s as [| c s IH]; simpl; [reflexivity | f_equal; exact IH]. Qed.

(** Decoding undoes encoding on ASCII text. *)
Lemma decode_encode_ascii (s : string) :
  is_ascii s = true -> Py.decode_utf8 (Py.encode_utf8 s) = s.
Proof.
  unfold Py.encode_utf8, is_ascii.
  induction s as [| c s IH]; [reflexivity |].
  cbn [Py.all_chars]. intros H. apply andb_prop in H as [Hc Hs].
  change (list_byte_of_string (String c s))
    with (byte_of_ascii c :: list_byte_of_string s).
  cbn [Py.decode_utf8]. rewrite (is_ascii_byte c Hc).
  unfold Py.keep. rewrite ascii_of_byte_of_ascii, (IH Hs). reflexivity.
Qed.

(** X6. A device that echoes an ASCII command of at most 2048 characters
    gets it printed back unchanged: [send_udp_cmd] returns the very text it
    sent. *)
Theorem echo_round_trip (target : string) (tport : Z) (cmd : string) (net : network)
        (w : world) :
  is_ascii cmd = true ->
  (String.length cmd <= 2048)%nat ->
  os_bind net 0 = None ->
  os_sendto net (Py.encode_utf8 cmd) target tport = None ->
  os_recvfrom net = Datagram (Py.encode_utf8 cmd) ->
  send_udp_cmd target tport cmd true net w = (Return cmd, after_send w target tport cmd).
Proof.
  intros Ha Hl Hb Hs Hr.
  rewrite send_udp_cmd_cases, Hb, Hs, Hr. cbv zeta.
  rewrite firstn_all2.
  - rewrite (decode_encode_ascii cmd Ha). reflexivity.
  - unfold Py.encode_utf8. rewrite length_list_byte_of_string. lia.
Qed.

Lemma echo_round_trip_witness :
  send_udp_cmd "10.0.0.9" 9998 "broadcast off" true
               (with_recv quiet_net (Datagram (Py.encode_utf8 "broadcast off"))) (mkWorld [] [])
  = (Return "broadcast off", after_send (mkWorld [] []) "10.0.0.9" 9998 "broadcast off").
Proof.
  apply (echo_round_trip "10.0.0.9" 9998 "broadcast off"
           (with_recv quiet_net (Datagram (Py.encode_utf8 "broadcast off"))) (mkWorld [] []));
    try reflexivity.
  simpl; lia.
Defined.

(** ** The interactive selection *)

Lemma select_loop_refused {rt : Builtins} (devices : list Device) (line : string)
      (rest : list string) (tr : list event) :
  refused_selection devices line = true ->
  select_loop devices (line :: rest) tr
  = select_loop devices rest
      ((tr ++ [select_prompt devices]) ++ [Stdout ("Invalid selection." ++ newline)]).
Proof.
  unfold refused_selection. cbn [select_loop].
  destruct (isdigit (strip line)); cbn [negb orb]; [| reflexivity].
  destruct (int_of (strip line)) as [n |]; [| discriminate].
  destruct ((1 <=? n) && (n <=? len_devices devices)); [discriminate | reflexivity].
Qed.

Lemma select_loop_valid {rt : Builtins} (devices : list Device) (line : string)
      (rest : list string) (tr : list event) :
  valid_selection devices line = true ->
  exists d,
    nth_error devices (selected_index line) = Some d /\
    select_loop devices (line :: rest) tr
    = (Return d, mkWorld rest (tr ++ [select_prompt devices])).
Proof.
  unfold valid_selection, selected_index. cbn [select_loop].
  destruct (isdigit (strip line)); cbn [andb]; [| discriminate].
  destruct (int_of (strip line)) as [n |]; [| discriminate].
  intros Hr. rewrite Hr.
  apply andb_prop in Hr as [Hlo Hhi]. apply Z.leb_le in Hlo, Hhi.
  unfold len_devices in Hhi.
  destruct (nth_error devices (Z.to_nat (n - 1))) as [d |] eqn:E.
  - exists d. split; reflexivity.
  - apply nth_error_None in E. lia.
Qed.

Lemma select_loop_value_error {rt : Builtins} (devices : list Device) (line : string)
      (rest : list string) (tr : list event) :
  isdigit (strip line) = true ->
  int_of (strip line) = None ->
  select_loop devices (line :: rest) tr
  = (Raise ValueError, mkWorld rest (tr ++ [select_prompt devices])).
Proof. intros Hd Hi. cbn [select_loop]. rewrite Hd, Hi. reflexivity. Qed.

Lemma select_loop_skips {rt : Builtins} (devices : list Device) (bad rest : list string)
      (tr : list event) :
  Forall (fun line => refused_selection devices line = true) bad ->
  select_loop devices (bad ++ rest) tr = select_loop devices rest (tr ++ retries devices bad).
Proof.
  intros Hbad; revert tr; induction Hbad as [| line bad Hline _ IH]; intros tr.
  - cbn [retries app]. rewrite app_nil_r. reflexivity.
  - cbn [app retries]. rewrite (select_loop_refused _ _ _ _ Hline), IH.
    rewrite <- !app_assoc. reflexivity.
Qed.

Lemma pick_device_loop {rt : Builtins} (devices : list Device) (net : network) (w : world) :
  devices <> [] ->
  pick_device devices net w
  = select_loop devices (stdin w) (trace w ++ menu_events 1 devices).
Proof.
  intros Hne. destruct devices as [| d0 devices]; [congruence |].
  unfold pick_device, bind. rewrite print_menu_run. reflexivity.
Qed.

(** X7. [pick_device] on a list that is not empty: it refuses, each time
    with "Invalid selection." and a new prompt, every line whose stripped
    text does not pass [isdigit] or reads as a number outside 1 to the
    number of devices, and for the first line that reads as a number in that
    range it returns the device at that position, leaving the lines after it
    unread. *)
Theorem pick_device_selects {rt : Builtins} (devices : list Device) (bad : list string)
        (good : string) (rest : list string) (net : network) (w : world) :
  devices <> [] ->
  Forall (fun line => refused_selection devices line = true) bad ->
  valid_selection devices good = true ->
  stdin w = (bad ++ good :: rest)%list ->
  exists d,
    nth_error devices (selected_index good) = Some d /\
    pick_device devices net w
    = (Return d,
       mkWorld rest (trace w ++ menu_events 1 devices ++ retries devices bad
                     ++ [select_prompt devices])).
Proof.
  intros Hne Hbad Hgood Hin.
  rewrite (pick_device_loop devices net w Hne), Hin.
  rewrite (select_loop_skips _ bad (good :: rest) _ Hbad).
  destruct (select_loop_valid devices good rest
              ((trace w ++ menu_events 1 devices) ++ retries devices bad) Hgood)
    as (d & Hd & Hrun).
  exists d. split; [exact Hd |]. rewrite Hrun, <- !app_assoc. reflexivity.
Qed.

Lemma pick_device_selects_witness :
  pick_device pick_named_devices quiet_net (mkWorld ["0"; "/;"; " 2 "; "1"] [])
  = (Return (mkDevice "pick" "pick.local" "10.0.0.12" 9998),
     mkWorld ["1"]
             (menu_events 1 pick_named_devices ++ retries pick_named_devices ["0"; "/;"]
              ++ [select_prompt pick_named_devices])).
Proof.
  destruct (pick_device_selects pick_named_devices ["0"; "/;"] " 2 " ["1"] quiet_net
              (mkWorld ["0"; "/;"; " 2 "; "1"] []))
    as (d & Hd & Hrun).
  - discriminate.
  - repeat constructor.
  - reflexivity.
  - reflexivity.
  - rewrite Hrun. vm_compute in Hd. injection Hd as <-. reflexivity.
Defined.

(** X8. When standard input ends while [pick_device] has refused every
    line, it ends on the [EOFError] of [input], which nothing handles. *)
Theorem pick_device_end_of_input {rt : Builtins} (devices : list Device) (net : network)
        (w : world) :
  devices <> [] ->
  Forall (fun line => refused_selection devices line = true) (stdin w) ->
  pick_device devices net w
  = (Raise EOFError,
     mkWorld [] (trace w ++ menu_events 1 devices ++ retries devices (stdin w)
                 ++ [select_prompt devices])).
Proof.
  intros Hne Hbad.
  rewrite (pick_device_loop devices net w Hne).
  rewrite <- (app_nil_r (stdin w)) at 1.
  rewrite (select_loop_skips _ (stdin w) [] _ Hbad).
  cbn [select_loop]. rewrite <- !app_assoc. reflexivity.
Qed.

Lemma pick_device_end_of_input_witness :
  run "cli" (CmdPick 9999) lab_net ["7"; ""]
  = (Raise EOFError,
     mkWorld [] (menu_events 1 (discover (mdns lab_net))
                 ++ retries (discover (mdns lab_net)) ["7"; ""]
                 ++ [select_prompt (discover (mdns lab_net))])).
Proof.
  unfold run, main, bind, discover_now, dispatch, main_pick, bind.
  rewrite (pick_device_end_of_input (discover (mdns lab_net)) lab_net (mkWorld ["7"; ""] []));
    [reflexivity | vm_compute; discriminate | repeat constructor].
Defined.

Lemma select_loop_outcome {rt : Builtins} (devices : list Device) (lines : list string)
      (tr : list event) :
  match fst (select_loop devices lines tr) with
  | Return d => In d devices
  | Raise e => e = EOFError \/ e = ValueError
  end.
Proof.
  revert tr; induction lines as [| line lines IH]; intros tr; [left; reflexivity |].
  cbn [select_loop].
  destruct (isdigit (strip line)); [| apply IH].
  destruct (int_of (strip line)) as [n |]; [| right; reflexivity].
  destruct ((1 <=? n) && (n <=? len_devices devices)) eqn:Hr; [| apply IH].
  apply andb_prop in Hr as [Hlo Hhi]. apply Z.leb_le in Hlo, Hhi. unfold len_devices in Hhi.
  destruct (nth_error devices (Z.to_nat (n - 1))) as [d |] eqn:E.
  - cbn [fst]. eapply nth_error_In; exact E.
  - apply nth_error_None in E. lia.
Qed.

(** X9. For every sequence of input lines, [pick_device] returns a device
    of the list or raises: [SystemExit] when the list is empty, and
    otherwise the [EOFError] of [input] or the [ValueError] of [int]; the
    index it computes is never out of range. *)
Theorem pick_device_outcome {rt : Builtins} (devices : list Device) (net : network)
        (w : world) :
  match fst (pick_device devices net w) with
  | Return d => In d devices
  | Raise e =>
      (devices = [] /\
       e = SystemExit "No devices found. (mDNS blocked? component not advertising _esp32udplog._udp?)")
      \/ (devices <> [] /\ (e = EOFError \/ e = ValueError))
  end.
Proof.
  destruct devices as [| d0 devices]; [left; split; reflexivity |].
  rewrite pick_device_loop by discriminate.
  pose proof (select_loop_outcome (d0 :: devices) (stdin w)
                (trace w ++ menu_events 1 (d0 :: devices))) as H.
  destruct (fst (select_loop (d0 :: devices) (stdin w)
                             (trace w ++ menu_events 1 (d0 :: devices))));
    [exact H | right; split; [discriminate | exact H]].
Qed.

(** X25. A line whose stripped text passes [isdigit] but that [int] does
    not read ends [pick_device] on [ValueError]: no refusal is printed and
    nothing handles it. *)
Theorem pick_device_value_error {rt : Builtins} (devices : list Device) (bad : list string)
        (odd : string) (rest : list string) (net : network) (w : world) :
  devices <> [] ->
  Forall (fun line => refused_selection devices line = true) bad ->
  isdigit (strip odd) = true ->
  int_of (strip odd) = None ->
  stdin w = (bad ++ odd :: rest)%list ->
  pick_device devices net w
  = (Raise ValueError,
     mkWorld rest (trace w ++ menu_events 1 devices ++ retries devices bad
                   ++ [select_prompt devices])).
Proof.
  intros Hne Hbad Hd Hi Hin.
  rewrite (pick_device_loop devices net w Hne), Hin.
  rewrite (select_loop_skips _ bad (odd :: rest) _ Hbad).
  rewrite (select_loop_value_error _ _ _ _ Hd Hi), <- !app_assoc. reflexivity.
Qed.

Lemma pick_device_value_error_witness :
  fst (pick_device pick_named_devices quiet_net (mkWorld ["x"; long_number; "1"] []))
  = Raise ValueError.
Proof.
  rewrite (pick_device_value_error pick_named_devices ["x"] long_number ["1"] quiet_net
             (mkWorld ["x"; long_number; "1"] []));
    [reflexivity | discriminate | repeat constructor
     | vm_compute; reflexivity | vm_compute; reflexivity | reflexivity].
Defined.

(** ** The commands on the wire *)

Lemma resolve_sent {rt : Builtins} (argv0 : string) (devices : list Device) (wanted : string)
      (net : network) (w : world) :
  sent (trace (snd (resolve argv0 devices wanted net w))) = sent (trace w).
Proof. apply (no_exchange_resolve argv0 devices wanted net net w (agree_refl net)). Qed.

(** X10. [unbind], [status], [broadcast-on] and [broadcast-off] hand to
    [sendto] the one text "unbind", "status", "broadcast on" or "broadcast
    off", addressed to the resolved device's address and port: once when the
    device resolves and the local socket binds, and otherwise nothing. *)
Theorem fixed_command_datagram {rt : Builtins}
      (argv0 : string) (args : command) (device cmd : string)
        (net : network) (lines : list string) :
  literal_of args = Some cmd ->
  device_arg args = Some device ->
  sent (trace (snd (run argv0 args net lines)))
  = match fst (resolve argv0 (discover (mdns net)) device net (mkWorld lines [])) with
    | Return d => command_datagrams net d cmd
    | Raise _ => []
    end.
Proof.
  intros Hl Hd.
  pose proof (resolve_sent argv0 (discover (mdns net)) device net (mkWorld lines [])) as Hres.
  destruct args; try discriminate;
    injection Hl as <-; injection Hd as <-;
    unfold run, main, bind, discover_now, dispatch, bind, command_datagrams;
    destruct (resolve argv0 (discover (mdns net)) device0 net (mkWorld lines []))
      as [[d | e] w1]; cbn [fst snd] in *;
    try exact Hres;
    rewrite send_and_print_sent, Hres; reflexivity.
Qed.

Lemma fixed_command_datagram_witness :
  sent (trace (snd (run "cli" (CmdBroadcastOff "KITCHEN") lab_net [])))
  = [(list_byte_of_string "broadcast off", "10.0.0.8", 9000)].
Proof.
  rewrite (fixed_command_datagram "cli" (CmdBroadcastOff "KITCHEN") "KITCHEN" "broadcast off"
             lab_net [] eq_refl eq_refl).
  reflexivity.
Defined.

Lemma pick_action_sent (a : string) (d : Device) (tx_port : Z) (net : network) (w : world) :
  sent (trace (snd (pick_action a d tx_port net w)))
  = (sent (trace w) ++ action_datagrams net a d tx_port)%list.
Proof.
  unfold pick_action, action_datagrams, menu_literal, command_datagrams.
  destruct (String.eqb_spec a "1") as [-> | H1].
  - apply pick_bind_sent.
  - repeat match goal with
           | |- context [String.eqb a ?s] => destruct (String.eqb a s)
           end;
      try apply send_and_print_sent.
    symmetry; apply app_nil_r.
Qed.

(** X11. The action menu: entry 1 sends the [bind] for the local address,
    entries 2 to 5 send "status", "unbind", "broadcast off" and "broadcast
    on" in this order, and any other text sends nothing. *)
Theorem pick_action_datagram (a : string) (d : Device) (tx_port : Z) (net : network)
        (w : world) :
  sent (trace (snd (pick_action a d tx_port net w)))
  = (sent (trace w)
     ++ match menu_literal a with
        | Some cmd => command_datagrams net d cmd
        | None => if String.eqb a "1" then local_bind_datagrams net d tx_port else []
        end)%list.
Proof. apply pick_action_sent. Qed.

Lemma print_devices_run (devices : list Device) (net : network) (w : world) :
  print_devices devices net w
  = (Return tt,
     mkWorld (stdin w) (trace w ++ map (fun d => Stdout (list_line d ++ newline)) devices)).
Proof.
  revert w; induction devices as [| d devices IH]; intros w; simpl.
  - unfold ret. rewrite app_nil_r. destruct w; reflexivity.
  - unfold bind, print, write, emit. rewrite IH. cbn [stdin trace].
    rewrite <- app_assoc. reflexivity.
Qed.

Lemma sent_list_lines (devices : list Device) :
  sent (map (fun d => Stdout (list_line d ++ newline)) devices) = [].
Proof. induction devices as [| d devices IH]; [reflexivity | exact IH]. Qed.

(** X12. [list] cannot fail: whatever was discovered it returns normally,
    leaves standard input unread, sends nothing, and prints the plain notice
    when nothing was discovered and else one line per device, in the order
    of the discovery. *)
Theorem list_run {rt : Builtins} (argv0 : string) (net : network) (lines : list string) :
  run argv0 CmdList net lines
  = (Return tt,
     mkWorld lines
             match discover (mdns net) with
             | [] => [Stdout ("No devices found." ++ newline)]
             | devices => map (fun d => Stdout (list_line d ++ newline)) devices
             end) /\
  sent (trace (snd (run argv0 CmdList net lines))) = [] /\
  exit_status (fst (run argv0 CmdList net lines)) = 0.
Proof.
  assert (H : run argv0 CmdList net lines
              = (Return tt,
                 mkWorld lines
                         match discover (mdns net) with
                         | [] => [Stdout ("No devices found." ++ newline)]
                         | devices => map (fun d => Stdout (list_line d ++ newline)) devices
                         end)).
  { unfold run, main, bind, discover_now, dispatch.
    destruct (discover (mdns net)) as [| d devices]; [reflexivity |].
    rewrite print_devices_run. reflexivity. }
  rewrite H. split; [reflexivity |]. split; [| reflexivity].
  cbn [snd trace]. destruct (discover (mdns net)) as [| d devices]; [reflexivity |].
  apply sent_list_lines.
Qed.

(** ** The listener of logs *)

Lemma endswith_append (s suffix : string) : Py.endswith (s ++ suffix) suffix = true.
Proof.
  induction s as [| c s IH]; simpl.
  - destruct suffix; simpl; [reflexivity |].
    rewrite Ascii.eqb_refl, String.eqb_refl. reflexivity.
  - rewrite IH. apply orb_true_r.
Qed.

Lemma log_line_ends (data : list byte) : Py.endswith (log_line data) newline = true.
Proof.
  unfold log_line. cbv zeta.
  destruct (Py.endswith (Py.decode_utf8 (firstn (Z.to_nat 65535) data)) newline) eqn:E;
    [exact E | apply endswith_append].
Qed.

Lemma stdout_text_app (tr1 tr2 : list event) :
  stdout_text (tr1 ++ tr2) = stdout_text tr1 ++ stdout_text tr2.
Proof.
  induction tr1 as [| [text | data ip port] tr1 IH]; simpl; [reflexivity | | exact IH].
  rewrite IH, append_assoc. reflexivity.
Qed.

Lemma bind_return {A B} (m : M A) (k : A -> M B) (net : network) (w w1 : world) (a : A) :
  m net w = (Return a, w1) -> bind m k net w = k a net w1.
Proof. intros H; unfold bind; rewrite H; reflexivity. Qed.

Lemma listen_loop_run (rx : list (list byte)) (net : network) (w : world) :
  exists w',
    listen_loop rx net w = (Raise KeyboardInterrupt, w') /\
    stdin w' = stdin w /\
    sent (trace w') = sent (trace w) /\
    stdout_text (trace w') = stdout_text (trace w) ++ String.concat "" (map log_line rx).
Proof.
  revert w; induction rx as [| data rx IH]; intros w.
  - exists w. cbn. rewrite append_empty_r. repeat split.
  - cbn [listen_loop].
    set (txt := Py.decode_utf8 (firstn (Z.to_nat 65535) data)).
    set (w1 := mkWorld (stdin w) (trace w ++ [Stdout txt])).
    rewrite (bind_return (write txt) _ net w w1 tt eq_refl).
    assert (Hw2 : exists w2,
               (if negb (Py.endswith txt newline) then write newline else ret tt) net w1
               = (Return tt, w2) /\
               stdin w2 = stdin w /\ sent (trace w2) = sent (trace w) /\
               stdout_text (trace w2) = stdout_text (trace w) ++ log_line data).
    { unfold log_line. cbv zeta. fold txt.
      destruct (Py.endswith txt newline); cbn [negb].
      - exists w1. unfold ret, w1. cbn [stdin trace].
        rewrite sent_stdout, stdout_text_app. cbn [stdout_text].
        rewrite append_empty_r. repeat split.
      - eexists. split; [reflexivity |]. unfold w1. cbn [stdin trace].
        rewrite !sent_stdout, !stdout_text_app. cbn [stdout_text].
        rewrite !append_empty_r, append_assoc. repeat split. }
    destruct Hw2 as (w2 & Hrun & Hin & Hsent & Hout).
    rewrite (bind_return _ _ net w1 w2 tt Hrun).
    destruct (IH w2) as (w' & Hrun' & Hin' & Hsent' & Hout').
    exists w'. split; [exact Hrun' |].
    split; [congruence |]. split; [congruence |].
    rewrite Hout', Hout. cbn [map].
    destruct rx; cbn [String.concat map];
      rewrite ?append_empty_r, ?append_assoc; reflexivity.
Qed.

(** X13. Once its socket is bound, [listen_logs] never returns and never
    sends: it ends only when interrupted, having read nothing from standard
    input and written the banner and then, for each datagram in the order
    of arrival, the decoding of its first 65535 bytes, closed by a line feed
    when the text does not end in one; so what it writes for a datagram
    always ends a line. *)
Theorem listen_logs_prints_lines (port : Z) (net : network) (w : world) :
  os_bind net port = None ->
  (exists w',
      listen_logs port net w = (Raise KeyboardInterrupt, w') /\
      stdin w' = stdin w /\
      sent (trace w') = sent (trace w) /\
      stdout_text (trace w')
      = stdout_text (trace w)
        ++ ("Listening for UDP logs on 0.0.0.0:" ++ Py.str_int port ++ " (Ctrl+C to stop)"
            ++ newline)
        ++ String.concat "" (map log_line (inbound net))) /\
  (forall data, Py.endswith (log_line data) newline = true).
Proof.
  intros Hb. split; [| exact log_line_ends].
  unfold listen_logs, bind, print, write, emit, sock_bind. rewrite Hb.
  match goal with
  | |- context [listen_loop _ net ?w0] =>
      destruct (listen_loop_run (inbound net) net w0) as (w' & Hrun & Hin & Hsent & Hout)
  end.
  exists w'. split; [exact Hrun |].
  cbn [stdin trace] in *. split; [exact Hin |].
  rewrite sent_stdout in Hsent. split; [exact Hsent |].
  rewrite Hout, stdout_text_app. cbn [stdout_text].
  rewrite !append_empty_r, !append_assoc. reflexivity.
Qed.

Lemma listen_logs_prints_lines_witness :
  exists w',
    listen_logs 9999
      (mkNetwork [] (fun _ _ => inl "") (fun _ => None) (fun _ _ _ => None) Timeout
                 [list_byte_of_string "boot ok"; []; list_byte_of_string ("ready" ++ newline)])
      (mkWorld [] [])
    = (Raise KeyboardInterrupt, w') /\
    stdout_text (trace w')
    = "Listening for UDP logs on 0.0.0.0:9999 (Ctrl+C to stop)" ++ newline
      ++ "boot ok" ++ newline ++ newline ++ "ready" ++ newline.
Proof.
  destruct (proj1 (listen_logs_prints_lines 9999
              (mkNetwork [] (fun _ _ => inl "") (fun _ => None) (fun _ _ _ => None) Timeout
                 [list_byte_of_string "boot ok"; []; list_byte_of_string ("ready" ++ newline)])
              (mkWorld [] []) eq_refl))
    as (w' & Hrun & _ & _ & Hout).
  exists w'. split; [exact Hrun |]. rewrite Hout. reflexivity.
Defined.

(** ** More on discovery *)

Lemma discover_names_nodup {rt : Builtins}
      (evs : list mdns_event) : NoDup (map name (discover evs)).
Proof.
  eapply Permutation_NoDup.
  - apply Permutation_map, sort_by_perm.
  - apply dict_ok_names, listener_fold_ok. split; constructor.
Qed.

Lemma discover_in {rt : Builtins} (evs : list mdns_event) (d : Device) :
  In d (discover evs) <-> In d (dict_values (listener_run evs)).
Proof.
  unfold discover; split; intros H.
  - eapply Permutation_in; [apply Permutation_sym, sort_by_perm | exact H].
  - eapply Permutation_in; [apply sort_by_perm | exact H].
Qed.

Lemma nodup_names_unique (l : list Device) (a b : Device) :
  NoDup (map name l) -> In a l -> In b l -> name a = name b -> a = b.
Proof.
  induction l as [| x l IH]; simpl; [contradiction |].
  intros Hnd [-> | Ha] [-> | Hb] Hn; inversion Hnd as [| ? ? Hnot Hnd']; subst.
  - reflexivity.
  - destruct Hnot. rewrite Hn. apply in_map, Hb.
  - destruct Hnot. rewrite <- Hn. apply in_map, Ha.
  - apply IH; assumption.
Qed.

Lemma dict_set_stores (k : string) (v : Device) (d : dict) : In (k, v) (dict_set k v d).
Proof.
  induction d as [| [k0 v0] d IH]; simpl; [auto |].
  destruct (String.eqb_spec k0 k) as [-> | Hne]; simpl; auto.
Qed.

Lemma dict_set_keeps (k k' : string) (v v' : Device) (d : dict) :
  k' <> k -> In (k', v') d -> In (k', v') (dict_set k v d).
Proof.
  intros Hne; induction d as [| [k0 v0] d IH]; simpl; [auto |].
  intros [E | Hin].
  - injection E as -> ->.
    destruct (String.eqb_spec k' k) as [E | _]; [contradiction | simpl; auto].
  - destruct (String.eqb k0 k); simpl; auto.
Qed.

Lemma listener_fold_keeps (post : list mdns_event) (d : dict) (v : Device) :
  (forall ev dev, In ev post -> event_device ev = Some dev -> name dev <> name v) ->
  In (name v, v) d -> In (name v, v) (fold_left listener_step post d).
Proof.
  revert d; induction post as [| ev post IH]; intros d Hpost Hin; [exact Hin |].
  cbn [fold_left]. apply IH; [intros; eapply Hpost; simpl; eauto |].
  rewrite listener_step_event.
  destruct (event_device ev) as [dev |] eqn:E; [| exact Hin].
  apply dict_set_keeps; [| exact Hin].
  intros Heq. eapply Hpost; [left; reflexivity | exact E | symmetry; exact Heq].
Qed.

(** X14. The latest advertisement wins: the record an [add_service] or
    [update_service] stores is in the result of [discover] when no later
    callback stores a record of that name, and it is then the only record of
    that name. *)
Theorem latest_advertisement_wins {rt : Builtins} (pre post : list mdns_event) (ev : mdns_event)
        (dev : Device) :
  event_device ev = Some dev ->
  (forall ev' dev', In ev' post -> event_device ev' = Some dev' -> name dev' <> name dev) ->
  In dev (discover (pre ++ ev :: post)) /\
  (forall d, In d (discover (pre ++ ev :: post)) -> name d = name dev -> d = dev).
Proof.
  intros Hev Hpost.
  assert (Hin : In dev (discover (pre ++ ev :: post))).
  { apply discover_in. unfold listener_run, dict_values.
    rewrite fold_left_app. cbn [fold_left].
    apply (in_map snd _ (name dev, dev)).
    apply listener_fold_keeps; [exact Hpost |].
    rewrite listener_step_event, Hev. apply dict_set_stores. }
  split; [exact Hin |].
  intros d Hd Hn.
  apply (nodup_names_unique (discover (pre ++ ev :: post)));
    [apply discover_names_nodup | assumption | assumption | assumption].
Qed.

Lemma latest_advertisement_wins_witness :
  In (mkDevice "Kitchen" "esp.local" "10.0.0.8" 9000) (discover (mdns lab_net)).
Proof.
  refine (proj1 (latest_advertisement_wins
                   [AddService "Kitchen._esp32udplog._udp.local." (info4 "10.0.0.7" 9998);
                    AddService "attic._esp32udplog._udp.local." (info4 "10.0.0.9" 0);
                    AddService "v6only._esp32udplog._udp.local."
                               (Some (mkServiceInfo (Some 9998) ["fe80::2"] None))]
                   []
                   (UpdateService "Kitchen._esp32udplog._udp.local." (info4 "10.0.0.8" 9000))
                   (mkDevice "Kitchen" "esp.local" "10.0.0.8" 9000) eq_refl _)).
  intros ev' dev' [].
Defined.

(** X15. [remove_service] does nothing: a service that is withdrawn during
    the browse stays in the result, whatever else happens. *)
Theorem removals_are_ignored {rt : Builtins} (evs : list mdns_event) :
  discover (filter (fun ev => negb (is_remove ev)) evs) = discover evs.
Proof.
  unfold discover, listener_run. do 2 f_equal.
  generalize (@nil (string * Device)) as d.
  induction evs as [| ev evs IH]; intros d; [reflexivity |].
  destruct ev as [fqdn info | fqdn info | fqdn]; cbn [filter is_remove negb fold_left];
    apply IH.
Qed.

Lemma listener_fold_key (evs : list mdns_event) (d : dict) (k : string) :
  In k (map fst d) -> In k (map fst (fold_left listener_step evs d)).
Proof.
  revert d; induction evs as [| ev evs IH]; intros d Hk; [exact Hk |].
  cbn [fold_left]. apply IH. rewrite listener_step_event.
  destruct (event_device ev); [apply dict_set_keys; auto | exact Hk].
Qed.

Lemma listener_fold_length (evs : list mdns_event) (d : dict) :
  (List.length (fold_left listener_step evs d) <= List.length d + List.length evs)%nat.
Proof.
  revert d; induction evs as [| ev evs IH]; intros d; cbn [fold_left List.length]; [lia |].
  eapply Nat.le_trans; [apply IH |].
  rewrite listener_step_event.
  assert (Hset : forall k v, (List.length (dict_set k v d) <= S (List.length d))%nat).
  { intros k v. induction d as [| [k0 v0] d IHd]; simpl; [lia |].
    destruct (String.eqb k0 k); simpl; lia. }
  destruct (event_device ev) as [dev |]; [specialize (Hset (name dev) dev) |]; lia.
Qed.

(** X16. Nothing that resolved is lost: for every callback that stores a
    record, the result of [discover] has a record of that name; and the
    result has at most as many records as there were callbacks. *)
Theorem discover_complete {rt : Builtins} (evs : list mdns_event) :
  (forall ev dev,
      In ev evs -> event_device ev = Some dev ->
      exists d, In d (discover evs) /\ name d = name dev) /\
  (List.length (discover evs) <= List.length evs)%nat.
Proof.
  split.
  - intros ev dev Hin Hev.
    apply in_split in Hin as (pre & post & ->).
    assert (Hk : In (name dev) (map fst (listener_run (pre ++ ev :: post)))).
    { unfold listener_run. rewrite fold_left_app. cbn [fold_left].
      apply listener_fold_key. rewrite listener_step_event, Hev.
      apply dict_set_keys; auto. }
    apply in_map_iff in Hk as ([k v] & Hfst & Hkv). cbn [fst] in Hfst; subst k.
    exists v. split.
    + apply discover_in. apply (in_map snd _ _ Hkv).
    + assert (Hok : dict_ok (listener_run (pre ++ ev :: post))).
      { apply listener_fold_ok. split; constructor. }
      destruct Hok as [_ Hnames]. rewrite Forall_forall in Hnames.
      symmetry. apply (Hnames _ Hkv).
  - unfold discover.
    rewrite <- (Permutation_length (sort_by_perm sort_key (dict_values (listener_run evs)))).
    unfold dict_values. rewrite length_map.
    apply (listener_fold_length evs []).
Qed.

(** X17. [discover] is the stable sort of what the listener holds: a
    rearrangement of its records in which those whose names agree up to
    case keep the order the listener has them in. *)
Theorem discover_is_stable {rt : Builtins} (evs : list mdns_event) (k : string) :
  Permutation (dict_values (listener_run evs)) (discover evs) /\
  filter (fun d => String.eqb (lower (name d)) k) (discover evs)
  = filter (fun d => String.eqb (lower (name d)) k) (dict_values (listener_run evs)).
Proof.
  split; [apply sort_by_perm | apply (sort_by_stable sort_key)].
Qed.

Lemma first_match_own_name (devices : list Device) (d : Device) :
  NoDup (map name devices) -> In d devices ->
  first_match (fun x => String.eqb (name x) (name d)) devices = Some d.
Proof.
  induction devices as [| x devices IH]; simpl; [contradiction |].
  intros Hnd Hin. inversion Hnd as [| ? ? Hnot Hnd']; subst.
  destruct (String.eqb_spec (name x) (name d)) as [E | Hne].
  - destruct Hin as [-> | Hin]; [reflexivity |].
    destruct Hnot. rewrite E. apply in_map, Hin.
  - destruct Hin as [-> | Hin]; [congruence | apply IH; assumption].
Qed.

(** X18. Every discovered device that is not called [pick] is found under
    its own name: [resolve] returns that very record, without a prompt. *)
Theorem discovered_device_resolves {rt : Builtins}
      (argv0 : string) (evs : list mdns_event) (d : Device)
        (net : network) (w : world) :
  In d (discover evs) ->
  name d <> "pick" ->
  resolve argv0 (discover evs) (name d) net w = (Return d, w).
Proof.
  intros Hin Hpick. unfold resolve.
  destruct (String.eqb_spec (name d) "pick") as [E | _]; [contradiction |].
  rewrite (first_match_own_name (discover evs) d (discover_names_nodup evs) Hin).
  reflexivity.
Qed.

Lemma discovered_device_resolves_witness :
  resolve "cli" (discover (mdns lab_net)) "attic" lab_net (mkWorld ["1"] [])
  = (Return (mkDevice "attic" "esp.local" "10.0.0.9" 9998), mkWorld ["1"] []).
Proof.
  apply (discovered_device_resolves "cli" (mdns lab_net)
           (mkDevice "attic" "esp.local" "10.0.0.9" 9998) lab_net (mkWorld ["1"] [])).
  - vm_compute; auto.
  - discriminate.
Defined.

(** ** The record of a service *)




Lemma rstrip_with_last (p : ascii -> bool) (s : string) (x : ascii) :
  Py.endswith (Py.rstrip_with p s) (String x "") = true -> p x = false.
Proof.
  induction s as [| c s IH]; cbn [Py.rstrip_with]; [discriminate |].
  destruct (Py.rstrip_with p s) as [| c' r'] eqn:E.
  - destruct (p c) eqn:Ep; [discriminate |].
    cbn. destruct (Ascii.eqb_spec c x) as [-> | _]; [intros _; exact Ep | discriminate].
  - cbn [Py.endswith String.eqb]. intros H.
    apply IH. apply orb_prop in H as [H | H]; [| exact H].
    destruct (Ascii.eqb c x); discriminate.
Qed.

Lemma endswith_dot_local (s : string) : Py.endswith (s ++ ".local") "." = false.
Proof.
  induction s as [| c s IH]; [reflexivity |].
  cbn [append Py.endswith String.eqb]. rewrite IH, orb_false_r.
  destruct (Ascii.eqb c "."); [| reflexivity].
  destruct s; reflexivity.
Qed.

(** X20. The port and the host of a record: the port is the advertised one
    when there is one other than 0 and else the default 9998, so never 0;
    the host is never empty and never ends in a dot, being the advertised
    server name without its final dots or, when that leaves nothing, the
    instance name followed by ".local". *)
Theorem record_port_and_host (info : ServiceInfo) (fqdn : string) (d : Device) :
  _info_to_device (Some info) fqdn = Some d ->
  port d <> 0 /\
  (forall p, info_port info = Some p -> p <> 0 -> port d = p) /\
  (info_port info = None \/ info_port info = Some 0 -> port d = 9998) /\
  host d <> "" /\
  Py.endswith (host d) "." = false /\
  (server info = None -> host d = name d ++ ".local").
Proof.
  unfold _info_to_device.
  destruct (Py.truthy (first_ipv4 (parsed_addresses info))); cbn [negb]; [| discriminate].
  intros H; injection H as <-; cbn [port host name].
  repeat split.
  - destruct (info_port info) as [p |]; [| discriminate].
    destruct (Z.eqb_spec p 0); [discriminate | assumption].
  - intros p -> Hp. destruct (Z.eqb_spec p 0); [contradiction | reflexivity].
  - intros [-> | ->]; reflexivity.
  - destruct (Py.truthy _) eqn:T.
    + intros E; rewrite E in T; discriminate.
    + destruct (Py.split_head _ fqdn); discriminate.
  - destruct (Py.truthy _) eqn:T; [| apply endswith_dot_local].
    unfold Py.rstrip_dot in *.
    match goal with
    | |- Py.endswith ?h "." = false => destruct (Py.endswith h ".") eqn:E; [| reflexivity]
    end.
    apply rstrip_with_last in E. discriminate.
  - intros ->. reflexivity.
Qed.

Lemma record_port_and_host_witness :
  port (mkDevice "attic" "esp.local" "10.0.0.9" 9998) <> 0 /\
  host (mkDevice "attic" "esp.local" "10.0.0.9" 9998) <> "".
Proof.
  destruct (record_port_and_host
              (mkServiceInfo (Some 0) ["fe80::1"; "10.0.0.9"] (Some "esp.local."))
              "attic._esp32udplog._udp.local."
              (mkDevice "attic" "esp.local" "10.0.0.9" 9998) eq_refl)
    as (Hp & _ & _ & Hh & _).
  split; assumption.
Defined.

Lemma prefix_split (a b : string) : prefix a b = true -> exists rest, b = a ++ rest.
Proof.
  revert b; induction a as [| x a IH]; intros b; [exists b; reflexivity |].
  destruct b as [| y b]; cbn [prefix]; [discriminate |].
  destruct (ascii_dec x y) as [-> | _]; [| discriminate].
  intros H. destruct (IH b H) as [rest ->]. exists rest. reflexivity.
Qed.

Lemma prefix_trans (a b c : string) :
  prefix a b = true -> prefix b c = true -> prefix a c = true.
Proof.
  revert b c; induction a as [| x a IH]; intros b c; [destruct c; reflexivity |].
  destruct b as [| y b]; cbn [prefix]; [discriminate |].
  destruct (ascii_dec x y) as [-> | _]; [| discriminate].
  destruct c as [| z c]; cbn [prefix]; [discriminate |].
  destruct (ascii_dec y z) as [-> | _]; [| discriminate].
  apply IH.
Qed.

Lemma prefix_refl_cons (c : string) (x : ascii) (b : string) :
  prefix b c = true -> prefix (String x b) (String x c) = true.
Proof. simpl. destruct (ascii_dec x x); [auto | congruence]. Qed.

Lemma split_head_prefix (sep s : string) : prefix (Py.split_head sep s) s = true.
Proof.
  induction s as [| c s IH]; cbn [Py.split_head].
  - destruct (prefix sep ""); reflexivity.
  - destruct (prefix sep (String c s)); [reflexivity | apply prefix_refl_cons, IH].
Qed.

Lemma split_head_found (sep s : string) :
  Py.str_in sep s = true -> exists rest, s = Py.split_head sep s ++ sep ++ rest.
Proof.
  induction s as [| c s IH]; cbn [Py.split_head Py.str_in].
  - rewrite orb_false_r. intros H. rewrite H. apply prefix_split, H.
  - destruct (prefix sep (String c s)) eqn:E.
    + intros _. apply prefix_split, E.
    + cbn [orb]. intros H. destruct (IH H) as [rest Hrest].
      exists rest. cbn [append]. f_equal. exact Hrest.
Qed.

Lemma split_head_absent (sep s : string) :
  Py.str_in sep s = false -> Py.split_head sep s = s.
Proof.
  induction s as [| c s IH]; cbn [Py.split_head Py.str_in].
  - rewrite orb_false_r. intros ->. reflexivity.
  - intros H. apply orb_false_elim in H as [Hp Hs]. rewrite Hp, (IH Hs). reflexivity.
Qed.

Lemma split_head_clean (sep s : string) :
  sep <> "" -> Py.str_in sep (Py.split_head sep s) = false.
Proof.
  intros Hsep.
  assert (Hnil : prefix sep "" = false) by (destruct sep; [congruence | reflexivity]).
  induction s as [| c s IH]; cbn [Py.split_head].
  - rewrite Hnil. cbn [Py.str_in]. rewrite Hnil. reflexivity.
  - destruct (prefix sep (String c s)) eqn:E.
    + cbn [Py.str_in]. rewrite Hnil. reflexivity.
    + cbn [Py.str_in]. rewrite IH, orb_false_r.
      destruct (prefix sep (String c (Py.split_head sep s))) eqn:P; [| reflexivity].
      rewrite (prefix_trans _ _ (String c s) P) in E; [discriminate |].
      apply prefix_refl_cons, split_head_prefix.
Qed.

(** X21. The instance name of a record is the advertised name up to the
    first occurrence of the service suffix "._esp32udplog._udp.local.", the
    whole name when the suffix is absent; so the suffix never occurs in an
    instance name. *)
Theorem record_name_is_cut (info : ServiceInfo) (fqdn : string) (d : Device) :
  _info_to_device (Some info) fqdn = Some d ->
  (Py.str_in "._esp32udplog._udp.local." fqdn = true ->
   exists rest, fqdn = name d ++ "._esp32udplog._udp.local." ++ rest) /\
  (Py.str_in "._esp32udplog._udp.local." fqdn = false -> name d = fqdn) /\
  Py.str_in "._esp32udplog._udp.local." (name d) = false.
Proof.
  unfold _info_to_device.
  destruct (Py.truthy (first_ipv4 (parsed_addresses info))); cbn [negb]; [| discriminate].
  intros H; injection H as <-; cbn [name].
  split; [apply split_head_found |].
  split; [apply split_head_absent | apply split_head_clean; discriminate].
Qed.

Lemma record_name_is_cut_witness :
  exists rest,
    "attic._esp32udplog._udp.local." = "attic" ++ "._esp32udplog._udp.local." ++ rest.
Proof.
  exact (proj1 (record_name_is_cut
                  (mkServiceInfo (Some 0) ["fe80::1"; "10.0.0.9"] (Some "esp.local."))
                  "attic._esp32udplog._udp.local."
                  (mkDevice "attic" "esp.local" "10.0.0.9" 9998) eq_refl) eq_refl).
Defined.

(** ** How a run can end *)

Section Raises.
Context {rt : Builtins}.
Variable net : network.
Variable P : exn -> Prop.
Hypothesis allows_exit : forall msg, P (SystemExit msg).
Hypothesis allows_oserror : forall msg, P (OSError msg).
Hypothesis allows_value_error : P ValueError.

Lemma raises_ret {A} (a : A) : raises_within net P (ret a).
Proof. intros w e H; discriminate H. Qed.

Lemma raises_raise {A} (e : exn) : P e -> raises_within net P (@raise A e).
Proof. intros He w e' H; injection H as <-; exact He. Qed.

Lemma raises_print (s : string) : raises_within net P (print s).
Proof. intros w e H; discriminate H. Qed.

Lemma raises_bind {A B} (m : M A) (k : A -> M B) :
  raises_within net P m -> (forall a, raises_within net P (k a)) ->
  raises_within net P (bind m k).
Proof.
  intros Hm Hk w e. unfold bind.
  pose proof (Hm w) as Hm'.
  destruct (m net w) as [[a | e'] w1]; cbn [fst] in *.
  - apply Hk.
  - intros H; injection H as <-. apply Hm'; reflexivity.
Qed.

Lemma raises_print_devices (devices : list Device) :
  raises_within net P (print_devices devices).
Proof. intros w e H. rewrite print_devices_run in H. discriminate H. Qed.

Lemma raises_pick_device (devices : list Device) :
  P EOFError -> raises_within net P (pick_device devices).
Proof.
  intros Heof w e.
  destruct devices as [| d0 devices]; [intros H; injection H as <-; apply allows_exit |].
  rewrite pick_device_loop by discriminate.
  pose proof (select_loop_outcome (d0 :: devices) (stdin w)
                (trace w ++ menu_events 1 (d0 :: devices))) as H.
  intros E. rewrite E in H. destruct H as [-> | ->]; assumption.
Qed.

Lemma raises_choose :
  P EOFError -> raises_within net P (fun _ w => choose_loop (stdin w) (trace w)).
Proof.
  intros Heof w e. generalize (trace w).
  induction (stdin w) as [| line lines IH]; intros tr; cbn [choose_loop].
  - intros H; injection H as <-; exact Heof.
  - destruct (existsb _ _); [discriminate | apply IH].
Qed.

Lemma raises_resolve (argv0 : string) (devices : list Device) (wanted : string) :
  (wanted = "pick" -> P EOFError) ->
  raises_within net P (resolve argv0 devices wanted).
Proof.
  intros Heof. unfold resolve.
  destruct (String.eqb_spec wanted "pick") as [E | _];
    [apply raises_pick_device; auto |].
  destruct (first_match _ devices); [apply raises_ret |].
  destruct (first_match _ devices); [apply raises_ret | apply raises_raise, allows_exit].
Qed.

Lemma raises_get_local_ip (target : string) :
  raises_within net P (get_local_ip_for_target target).
Proof.
  intros w e. unfold get_local_ip_for_target.
  destruct (os_connect net target 9); [discriminate |].
  intros H; injection H as <-; apply allows_exit.
Qed.

Lemma raises_send_and_print (d : Device) (cmd fallback : string) :
  raises_within net P (send_and_print d cmd fallback).
Proof.
  intros w e. rewrite send_and_print_cases, send_udp_cmd_cases.
  destruct (os_bind net 0) as [msg |].
  - intros H; injection H as <-. apply allows_oserror.
  - cbv zeta.
    destruct (os_sendto net (Py.encode_utf8 cmd) (ip d) (port d));
      [| destruct (os_recvfrom net)];
      cbn [fst]; intros H; try discriminate H; injection H as <-; apply allows_exit.
Qed.

Lemma raises_pick_action (a : string) (d : Device) (tx_port : Z) :
  raises_within net P (pick_action a d tx_port).
Proof.
  unfold pick_action.
  destruct (String.eqb a "1").
  { apply raises_bind; [apply raises_get_local_ip |].
    intros; apply raises_send_and_print. }
  repeat (match goal with
          | |- context [if ?b then _ else _] => destruct b
          end; [apply raises_send_and_print |]).
  apply raises_ret.
Qed.
End Raises.

Lemma raises_listen_logs (port : Z) (net : network) (w : world) (e : exn) :
  fst (listen_logs port net w) = Raise e ->
  (exists msg, e = OSError msg) \/ e = KeyboardInterrupt.
Proof.
  destruct (os_bind net port) as [msg |] eqn:Eb.
  - rewrite (listen_logs_bind_fails port net w msg Eb). cbn [fst].
    intros H; injection H as <-. left; eauto.
  - unfold listen_logs, bind, print, write, emit, sock_bind. rewrite Eb.
    match goal with
    | |- context [listen_loop _ net ?w0] =>
        destruct (listen_loop_run (inbound net) net w0) as (w' & Hrun & _)
    end.
    rewrite Hrun. cbn [fst]. intros H; injection H as <-. right; reflexivity.
Qed.

Lemma dispatch_raises {rt : Builtins} (argv0 : string) (args : command)
      (devices : list Device) (net : network) :
  raises_within net (expected_exn args) (dispatch argv0 args devices).
Proof.
  assert (Hx : forall msg, expected_exn args (SystemExit msg)) by (intros; exact I).
  assert (Ho : forall msg, expected_exn args (OSError msg)) by (intros; exact I).
  assert (Hv : expected_exn args ValueError) by exact I.
  destruct args as [| tx | device pc_ip tx | device | device | device | device | port];
    cbn [dispatch];
    try (apply raises_bind;
         [apply raises_resolve; [assumption | assumption | intros ->; reflexivity] | intros d];
         try (apply raises_send_and_print; assumption)).
  - destruct devices; [apply raises_print | apply raises_print_devices].
  - unfold main_pick.
    apply raises_bind; [apply raises_pick_device; (assumption || reflexivity) | intros d].
    do 7 (apply raises_bind; [apply raises_print | intros _]).
    apply raises_bind; [apply raises_choose; reflexivity | intros a].
    apply raises_pick_action; assumption.
  - unfold main_bind. apply raises_bind.
    + destruct (Py.truthy _); [apply raises_ret | apply raises_get_local_ip; assumption].
    + intros a. apply raises_send_and_print; assumption.
  - apply raises_ret.
Qed.

(** X22. Three exceptions the tool keeps in or confines: no run ends on a
    timeout of the socket, none on an index out of range, and a run ends on
    the [EOFError] of [input] only when the command asks the user to choose:
    [pick], or a command whose device argument is the literal [pick]. *)
Theorem run_ends_as_expected {rt : Builtins} (argv0 : string) (args : command)
        (net : network) (lines : list string) (e : exn) :
  fst (run argv0 args net lines) = Raise e ->
  e <> SocketTimeout /\ e <> IndexError /\ (e = EOFError -> is_interactive args = true).
Proof.
  intros Hrun.
  assert (He : expected_exn args e).
  { revert Hrun. unfold run. destruct (is_listen args) eqn:L.
    - destruct args; try discriminate. cbn [main]. intros H.
      apply raises_listen_logs in H as [(msg & ->) | ->]; exact I.
    - assert (Hmain : main argv0 args
                      = bind discover_now (fun devices => dispatch argv0 args devices))
        by (destruct args; try discriminate; reflexivity).
      rewrite Hmain. revert e. generalize (mkWorld lines []).
      apply raises_bind; [intros w e H; discriminate H | intros devices].
      apply dispatch_raises. }
  destruct e; cbn [expected_exn] in He; try contradiction;
    (split; [discriminate | split; [discriminate |]]);
    try (intros H; discriminate H).
  intros _; exact He.
Qed.

Lemma run_ends_as_expected_witness :
  fst (run "cli" (CmdBind "pick" "" 9999) lab_net ["9"]) = Raise EOFError /\
  is_interactive (CmdBind "pick" "" 9999) = true.
Proof.
  split; [reflexivity |].
  exact (proj2 (proj2 (run_ends_as_expected "cli" (CmdBind "pick" "" 9999) lab_net ["9"]
                                            EOFError eq_refl)) eq_refl).
Defined.

(** ** The action menu *)

Lemma choose_loop_step {rt : Builtins} (line : string) (rest : list string) (tr : list event) :
  choose_loop (line :: rest) tr =
  if valid_action line
  then (Return (strip line), mkWorld rest (tr ++ [Stdout "Choose [1-5]: "]))
  else choose_loop rest (tr ++ [Stdout "Choose [1-5]: "]).
Proof. reflexivity. Qed.

Lemma choose_loop_skips {rt : Builtins} (bad rest : list string) (tr : list event) :
  Forall (fun line => valid_action line = false) bad ->
  choose_loop (bad ++ rest) tr
  = choose_loop rest (tr ++ repeat (Stdout "Choose [1-5]: ") (List.length bad)).
Proof.
  intros Hbad; revert tr; induction Hbad as [| line bad Hline _ IH]; intros tr.
  - cbn [List.length repeat app]. rewrite app_nil_r. reflexivity.
  - cbn [app List.length repeat]. rewrite choose_loop_step, Hline, IH.
    rewrite <- app_assoc. reflexivity.
Qed.

(** X23. The action prompt takes the first line that, once stripped, is one
    of "1" to "5", asks again without a word for every other line, and ends
    on the [EOFError] of [input] when standard input ends first. *)
Theorem choose_loop_selects {rt : Builtins} (bad : list string) (tr : list event) :
  Forall (fun line => valid_action line = false) bad ->
  (forall good rest,
      valid_action good = true ->
      choose_loop (bad ++ good :: rest) tr
      = (Return (strip good),
         mkWorld rest (tr ++ repeat (Stdout "Choose [1-5]: ") (S (List.length bad))))) /\
  choose_loop bad tr
  = (Raise EOFError, mkWorld [] (tr ++ repeat (Stdout "Choose [1-5]: ") (S (List.length bad)))).
Proof.
  intros Hbad.
  assert (Hrep : forall n, (repeat (Stdout "Choose [1-5]: ") n ++ [Stdout "Choose [1-5]: "]
                            = repeat (Stdout "Choose [1-5]: ") (S n))%list).
  { induction n as [| n IHn]; [reflexivity |]. cbn [repeat app]. rewrite IHn. reflexivity. }
  split.
  - intros good rest Hgood.
    rewrite (choose_loop_skips bad (good :: rest) tr Hbad), choose_loop_step, Hgood.
    rewrite <- app_assoc, Hrep. reflexivity.
  - rewrite <- (app_nil_r bad) at 1.
    rewrite (choose_loop_skips bad [] tr Hbad). cbn [choose_loop].
    rewrite <- app_assoc, Hrep. reflexivity.
Qed.

Lemma choose_loop_selects_witness :
  choose_loop ["0"; "six"; " 4 "; "1"] []
  = (Return "4", mkWorld ["1"] (repeat (Stdout "Choose [1-5]: ") 3)).
Proof.
  exact (proj1 (choose_loop_selects ["0"; "six"] []
                                    ltac:(repeat constructor)) " 4 " ["1"] eq_refl).
Defined.

(** X24. A whole [pick]: when the first line names a device by its
    position and the second an entry of the menu, the run sends to that
    device what the entry stands for, and nothing else. *)
Theorem pick_run_datagrams {rt : Builtins} (argv0 : string) (tx_port : Z) (net : network)
        (sel act : string) (rest : list string) :
  valid_selection (discover (mdns net)) sel = true ->
  valid_action act = true ->
  exists d,
    nth_error (discover (mdns net)) (selected_index sel) = Some d /\
    sent (trace (snd (run argv0 (CmdPick tx_port) net (sel :: act :: rest))))
    = match menu_literal (strip act) with
      | Some cmd => command_datagrams net d cmd
      | None => local_bind_datagrams net d tx_port
      end.
Proof.
  intros Hsel Hact.
  destruct (select_loop_valid (discover (mdns net)) sel (act :: rest)
              ([] ++ menu_events 1 (discover (mdns net))) Hsel) as (d & Hd & Hloop).
  exists d; split; [exact Hd |].
  assert (Hne : discover (mdns net) <> []).
  { intros E. rewrite E in Hd. destruct (selected_index sel); discriminate. }
  unfold run, main. rewrite (bind_return discover_now _ net _ _ _ eq_refl).
  cbn [dispatch]. unfold main_pick.
  assert (Hpick : pick_device (discover (mdns net)) net (mkWorld (sel :: act :: rest) [])
                  = (Return d,
                     mkWorld (act :: rest)
                             (([] ++ menu_events 1 (discover (mdns net)))
                              ++ [select_prompt (discover (mdns net))]))).
  { rewrite (pick_device_loop _ net _ Hne). cbn [stdin trace]. exact Hloop. }
  rewrite (bind_return _ _ net _ _ _ Hpick).
  do 7 (rewrite (bind_return (print _) _ net _ _ tt eq_refl)).
  cbn [stdin trace].
  erewrite bind_return; [| cbn [stdin trace]; rewrite choose_loop_step, Hact; reflexivity].
  rewrite pick_action_sent. cbn [trace].
  rewrite !sent_stdout, !sent_app, sent_menu_events. cbn [sent app].
  unfold action_datagrams.
  destruct (menu_literal (strip act)) as [cmd |] eqn:El; [reflexivity |].
  destruct (String.eqb_spec (strip act) "1") as [_ | H1]; [reflexivity |].
  exfalso. unfold valid_action in Hact. unfold menu_literal in El.
  cbn [existsb] in Hact.
  destruct (String.eqb_spec (strip act) "1"); [contradiction |].
  destruct (String.eqb (strip act) "2"); [discriminate |].
  destruct (String.eqb (strip act) "3"); [discriminate |].
  destruct (String.eqb (strip act) "4"); [discriminate |].
  destruct (String.eqb (strip act) "5"); discriminate.
Qed.

Lemma pick_run_datagrams_witness :
  sent (trace (snd (run "cli" (CmdPick 9999) lab_net ["2"; "5"])))
  = [(list_byte_of_string "broadcast on", "10.0.0.8", 9000)].
Proof.
  destruct (pick_run_datagrams (rt := ascii_builtins) "cli" 9999 lab_net "2" "5" []
              eq_refl eq_refl)
    as (d & Hd & Hsent).
  rewrite Hsent. vm_compute in Hd. injection Hd as <-. reflexivity.
Defined.
